(** * Camera and projection math of the mesh viewer (raytracer.py)

    A shallow embedding of the helper functions [normalize], [perspective]
    and [look_at], of the camera update of the main loop, of the OBJ loading
    path and of the file-selection menu.

    Numbers: numpy's floating-point scalars are read as real numbers, so
    [np.linalg.norm], [np.tan], [np.sin], [np.cos] and [np.pi] are the
    functions [sqrt], [tan], [sin], [cos] and the constant [PI] of the
    Standard Library, and the decimal literals of the source ([0.1], [0.003],
    [100.0]) are the rationals they denote.  Rounding, overflow and the
    [dtype='f4'] conversions are outside this reading; the module [Fp] gives
    the same functions on IEEE 754 values, and the lemmas on it show the
    inputs at which the code departs from the real-number reading. *)

From Stdlib Require Import Reals Lra Psatz ZArith List String Ascii Bool.
From Stdlib Require Import SpecFloat.
Import ListNotations.

Open Scope R_scope.

(** ** Vectors *)

Record vec3 : Type := V3 { vx : R; vy : R; vz : R }.

Definition vzero : vec3 := V3 0 0 0.

Definition vadd (a b : vec3) : vec3 :=
  V3 (vx a + vx b) (vy a + vy b) (vz a + vz b).

Definition vsub (a b : vec3) : vec3 :=
  V3 (vx a - vx b) (vy a - vy b) (vz a - vz b).

Definition vneg (a : vec3) : vec3 := V3 (- vx a) (- vy a) (- vz a).

(** [v * k], numpy's broadcast of a scalar over an array. *)
Definition vscale (v : vec3) (k : R) : vec3 :=
  V3 (vx v * k) (vy v * k) (vz v * k).

(** [v / n]. *)
Definition vdiv (v : vec3) (n : R) : vec3 :=
  V3 (vx v / n) (vy v / n) (vz v / n).

(** [np.dot] and [np.cross] on 3-vectors. *)
Definition dot (a b : vec3) : R :=
  vx a * vx b + vy a * vy b + vz a * vz b.

Definition cross (a b : vec3) : vec3 :=
  V3 (vy a * vz b - vz a * vy b)
     (vz a * vx b - vx a * vz b)
     (vx a * vy b - vy a * vx b).

(** [np.linalg.norm] of a 1-D array: the square root of [dot v v]. *)
Definition norm (v : vec3) : R := sqrt (dot v v).

(** The test [n != 0], with the branches in the order of the source. *)
Definition Rne_dec (a b : R) : {a <> b} + {a = b} :=
  match Req_dec_T a b with
  | left e => right e
  | right n => left n
  end.

(** [normalize], with the division it may perform taken as an argument:
    [return v / n if n != 0 else v].  Python's conditional expression
    evaluates only the chosen branch. *)
Definition normalize_with (dv : vec3 -> R -> vec3) (v : vec3) : vec3 :=
  let n := norm v in
  if Rne_dec n 0 then dv v n else v.

Definition normalize (v : vec3) : vec3 := normalize_with vdiv v.

(** ** 4x4 matrices, row-major *)

Record vec4 : Type := V4 { c0 : R; c1 : R; c2 : R; c3 : R }.

Record mat4 : Type := M4 { row0 : vec4; row1 : vec4; row2 : vec4; row3 : vec4 }.

Inductive ix : Type := i0 | i1 | i2 | i3.

Definition row (m : mat4) (i : ix) : vec4 :=
  match i with
  | i0 => row0 m
  | i1 => row1 m
  | i2 => row2 m
  | i3 => row3 m
  end.

Definition col (r : vec4) (j : ix) : R :=
  match j with
  | i0 => c0 r
  | i1 => c1 r
  | i2 => c2 r
  | i3 => c3 r
  end.

(** [m[i][j]] *)
Definition entry (m : mat4) (i j : ix) : R := col (row m i) j.

Definition set_row (m : mat4) (i : ix) (r : vec4) : mat4 :=
  match i with
  | i0 => M4 r (row1 m) (row2 m) (row3 m)
  | i1 => M4 (row0 m) r (row2 m) (row3 m)
  | i2 => M4 (row0 m) (row1 m) r (row3 m)
  | i3 => M4 (row0 m) (row1 m) (row2 m) r
  end.

(** [m[i, :3] = v] *)
Definition set_row_xyz (m : mat4) (i : ix) (v : vec3) : mat4 :=
  set_row m i (V4 (vx v) (vy v) (vz v) (c3 (row m i))).

(** [m[i, 3] = x] *)
Definition set_entry3 (m : mat4) (i : ix) (x : R) : mat4 :=
  let r := row m i in set_row m i (V4 (c0 r) (c1 r) (c2 r) x).

(** [np.eye(4)] *)
Definition eye4 : mat4 :=
  M4 (V4 1 0 0 0) (V4 0 1 0 0) (V4 0 0 1 0) (V4 0 0 0 1).

Definition dot4 (a b : vec4) : R :=
  c0 a * c0 b + c1 a * c1 b + c2 a * c2 b + c3 a * c3 b.

Definition column (m : mat4) (j : ix) : vec4 :=
  V4 (entry m i0 j) (entry m i1 j) (entry m i2 j) (entry m i3 j).

(** [a @ b] on two 4x4 matrices. *)
Definition matmul (a b : mat4) : mat4 :=
  let r (i : ix) :=
    V4 (dot4 (row a i) (column b i0)) (dot4 (row a i) (column b i1))
       (dot4 (row a i) (column b i2)) (dot4 (row a i) (column b i3)) in
  M4 (r i0) (r i1) (r i2) (r i3).

(** [m * vec4(p, 1.0)]-style product of a matrix with a column vector, as
    the vertex shader applies [MVP]. *)
Definition mat_vec (m : mat4) (p : vec4) : vec4 :=
  V4 (dot4 (row0 m) p) (dot4 (row1 m) p) (dot4 (row2 m) p) (dot4 (row3 m) p).

Definition homogeneous (p : vec3) : vec4 := V4 (vx p) (vy p) (vz p) 1.

(** ** Projection and view matrices *)

Definition perspective (fovy aspect near far : R) : mat4 :=
  let f := 1 / tan (fovy / 2) in
  M4 (V4 (f / aspect) 0 0 0)
     (V4 0 f 0 0)
     (V4 0 0 ((far + near) / (near - far)) ((2 * far * near) / (near - far)))
     (V4 0 0 (-1) 0).

Definition look_at (eye target up : vec3) : mat4 :=
  let f := normalize (vsub target eye) in
  let s := normalize (cross f up) in
  let u := cross s f in
  let mat := eye4 in
  let mat := set_row_xyz mat i0 s in
  let mat := set_row_xyz mat i1 u in
  let mat := set_row_xyz mat i2 (vneg f) in
  let mat := set_entry3 mat i0 (- dot s eye) in
  let mat := set_entry3 mat i1 (- dot u eye) in
  let mat := set_entry3 mat i2 (dot f eye) in
  mat.

(** [np.radians] *)
Definition radians (deg : R) : R := deg * PI / 180.

(** ** Input events *)

Inductive key : Type :=
  | K_ESCAPE | K_UP | K_DOWN | K_RETURN
  | K_w | K_s | K_a | K_d | K_q | K_e
  | K_other (code : Z).

(** A pygame event: its type and, for the types the program reads, the
    attribute it reads ([event.key], [event.rel]). *)
Inductive event : Type :=
  | QUIT
  | KEYDOWN (k : key)
  | MOUSEMOTION (rel : Z * Z)
  | OtherEvent.

(** ** Camera state and the per-frame update of [main] *)

Record camera : Type := Camera { cam_pos : vec3; yaw : R; pitch : R }.

Definition MOVE_SPEED : R := 0.1.
Definition LOOK_SPEED : R := 0.003.
Definition WIDTH : R := 1280.
Definition HEIGHT : R := 720.

(** [cam_pos = [0, 1, 4]; yaw, pitch = np.pi, 0.0] *)
Definition initial_camera : camera := Camera (V3 0 1 4) PI 0.

(** [np.clip(x, lo, hi)]: the maximum with [lo], then the minimum with [hi]. *)
Definition clip (x lo hi : R) : R := Rmin (Rmax x lo) hi.

(** The body of the [MOUSEMOTION] branch, with [mx, my = event.rel]. *)
Definition apply_look (c : camera) (mx my : Z) : camera :=
  let yaw := yaw c - IZR mx * LOOK_SPEED in
  let pitch := pitch c + IZR my * LOOK_SPEED in
  let pitch := clip pitch (- PI / 2) (PI / 2) in
  Camera (cam_pos c) yaw pitch.

Record loop_state : Type := Loop { running : bool; cam : camera }.

(** One iteration of [for event in pygame.event.get()] in the main loop:
    three independent [if]s. *)
Definition handle_event (s : loop_state) (ev : event) : loop_state :=
  let s := match ev with
           | QUIT => Loop false (cam s)
           | _ => s
           end in
  let s := match ev with
           | KEYDOWN K_ESCAPE => Loop false (cam s)
           | _ => s
           end in
  match ev with
  | MOUSEMOTION (mx, my) => Loop (running s) (apply_look (cam s) mx my)
  | _ => s
  end.

Definition world_up : vec3 := V3 0 1 0.

(** [forward = [sin(yaw), 0, cos(yaw)]] *)
Definition forward_of (yaw : R) : vec3 := V3 (sin yaw) 0 (cos yaw).

(** [right = normalize(cross(forward, [0,1,0]))], over any division. *)
Definition right_with (dv : vec3 -> R -> vec3) (yaw : R) : vec3 :=
  normalize_with dv (cross (forward_of yaw) world_up).

Definition right_of (yaw : R) : vec3 := right_with vdiv yaw.

(** [p[1] += d] *)
Definition add_y (p : vec3) (d : R) : vec3 := V3 (vx p) (vy p + d) (vz p).

(** The "Movement" block; [keys] is [pygame.key.get_pressed()]. *)
Definition apply_move (keys : key -> bool) (c : camera) : camera :=
  let forward := forward_of (yaw c) in
  let right := right_of (yaw c) in
  let p := cam_pos c in
  let p := if keys K_w then vadd p (vscale forward MOVE_SPEED) else p in
  let p := if keys K_s then vsub p (vscale forward MOVE_SPEED) else p in
  let p := if keys K_a then vsub p (vscale right MOVE_SPEED) else p in
  let p := if keys K_d then vadd p (vscale right MOVE_SPEED) else p in
  let p := if keys K_q then add_y p MOVE_SPEED else p in
  let p := if keys K_e then add_y p (- MOVE_SPEED) else p in
  Camera p (yaw c) (pitch c).

(** The "Render" block up to [MVP = proj @ view]. *)
Definition look_direction (c : camera) : vec3 :=
  V3 (sin (yaw c) * cos (pitch c)) (sin (pitch c)) (cos (yaw c) * cos (pitch c)).

Definition NEAR : R := 0.1.
Definition FAR : R := 100.0.

Definition frame_proj : mat4 :=
  let aspect := WIDTH / HEIGHT in
  perspective (radians 60) aspect NEAR FAR.

Definition frame_target (c : camera) : vec3 := vadd (cam_pos c) (look_direction c).

Definition frame_view (c : camera) : mat4 :=
  look_at (cam_pos c) (frame_target c) world_up.

Definition frame_mvp (c : camera) : mat4 := matmul frame_proj (frame_view c).

(** Clip-space test of the near plane: a point [p] is in front of the near
    plane when [-w < z], on it when [z = -w] and behind it when [z < -w]. *)
Definition behind_or_on_near_plane (p : vec4) : Prop := c2 p <= - c3 p.

(** ** Strings *)

Open Scope string_scope.

Definition lower_ascii (c : ascii) : ascii :=
  let n := nat_of_ascii c in
  if ((65 <=? n) && (n <=? 90))%nat then ascii_of_nat (n + 32) else c.

(** [str.lower] on ASCII text. *)
Fixpoint lower (s : string) : string :=
  match s with
  | EmptyString => EmptyString
  | String c r => String (lower_ascii c) (lower r)
  end.

(** [str.endswith] *)
Definition endswith (s suffix : string) : bool :=
  let n := String.length s in
  let m := String.length suffix in
  ((m <=? n)%nat && String.eqb (substring (n - m) m s) suffix)%bool.

Definition startswith (s pre : string) : bool :=
  String.eqb (substring 0 (String.length pre) s) pre.

(** [os.path.join(a, b)] of [posixpath]. *)
Definition os_path_join (a b : string) : string :=
  if startswith b "/" then b
  else if (String.eqb a "" || endswith a "/")%bool then a ++ b
  else a ++ "/" ++ b.

(** ** Exceptions and results *)

Inductive exn : Type :=
  | FileNotFoundError (msg : string)
  | IndexError (msg : string)
  | ExternalError (cls : string) (msg : string).

(** [str(e)] *)
Definition exn_str (e : exn) : string :=
  match e with
  | FileNotFoundError msg => msg
  | IndexError msg => msg
  | ExternalError _ msg => msg
  end.

Definition is_not_found (e : exn) : bool :=
  match e with
  | FileNotFoundError _ => true
  | _ => false
  end.

Inductive result (A : Type) : Type :=
  | Ok (a : A)
  | Raise (e : exn).

Arguments Ok {A} a.
Arguments Raise {A} e.

(** ** The file-selection menu *)

Record menu_state : Type := Menu { selected_index : Z; menu_active : bool }.

(** One iteration of [for event in pygame.event.get()] in the menu, for a
    list of [n] files.  [None] is [pygame.quit(); exit()]. *)
Definition menu_event (n : Z) (st : menu_state) (ev : event) : option menu_state :=
  match ev with
  | QUIT => None
  | KEYDOWN k =>
      match k with
      | K_UP => Some (Menu ((selected_index st - 1) mod n) (menu_active st))
      | K_DOWN => Some (Menu ((selected_index st + 1) mod n) (menu_active st))
      | K_RETURN => Some (Menu (selected_index st) false)
      | _ => Some st
      end
  | _ => Some st
  end.

Fixpoint menu_events (n : Z) (st : menu_state) (evs : list event) : option menu_state :=
  match evs with
  | [] => Some st
  | ev :: rest =>
      match menu_event n st ev with
      | None => None
      | Some st' => menu_events n st' rest
      end
  end.

Inductive loop_end : Type :=
  | Done (st : menu_state)
  | Exited
  | NoMoreInput.

(** [while menu_active:], one batch of events per iteration.  The batches
    are what successive calls of [pygame.event.get()] return; the loop has
    no other way out, so running out of batches stands for waiting for
    input forever. *)
Fixpoint menu_loop (n : Z) (st : menu_state) (batches : list (list event)) : loop_end :=
  if menu_active st then
    match batches with
    | [] => NoMoreInput
    | b :: rest =>
        match menu_events n st b with
        | None => Exited
        | Some st' => menu_loop n st' rest
        end
    end
  else Done st.

(** [l[i]] with Python's negative indices and [IndexError]. *)
Definition py_index {A : Type} (l : list A) (i : Z) : result A :=
  let n := Z.of_nat (List.length l) in
  let j := (if i <? 0 then i + n else i)%Z in
  if ((j <? 0) || (n <=? j))%Z then Raise (IndexError "list index out of range")
  else match nth_error l (Z.to_nat j) with
       | Some a => Ok a
       | None => Raise (IndexError "list index out of range")
       end.

Inductive menu_result : Type :=
  | MenuReturn (path : string)
  | MenuRaise (e : exn)
  | MenuExit
  | MenuWaiting.

Definition is_obj (f : string) : bool := endswith (lower f) ".obj".

Definition initial_menu : menu_state := Menu 0 true.

(** [obj_menu]; [listing] is [os.listdir(obj_folder)]. *)
Definition obj_menu (obj_folder : string) (listing : list string)
    (batches : list (list event)) : menu_result :=
  let obj_files := filter is_obj listing in
  match obj_files with
  | [] => MenuRaise (FileNotFoundError ("No OBJ files found in " ++ obj_folder))
  | _ :: _ =>
      match menu_loop (Z.of_nat (List.length obj_files)) initial_menu batches with
      | NoMoreInput => MenuWaiting
      | Exited => MenuExit
      | Done st =>
          match py_index obj_files (selected_index st) with
          | Ok f => MenuReturn (os_path_join obj_folder f)
          | Raise e => MenuRaise e
          end
      end
  end.

(** ** Loading a mesh and the start of [main] *)

(** What [load_obj] reads of a pywavefront scene: [scene.vertices] and, for
    each entry of [scene.meshes], its name and [mesh.faces]. *)
Record scene : Type := Scene {
  scene_vertices : list (list R);
  scene_meshes : list (string * list (list Z))
}.

Inductive effect : Type :=
  | Print (s : string)
  | GLSetup (vertices : list (list R)) (faces : list Z)
  | GLRender (mvp : mat4)
  | PygameQuit.

Definition is_gl (e : effect) : bool :=
  match e with
  | GLSetup _ _ => true
  | GLRender _ => true
  | _ => false
  end.

Inductive outcome : Type :=
  | Returned
  | Uncaught (e : exn)
  | SysExit
  | Waiting.

(** The main loop, one element of [frames] per iteration: the events of
    [pygame.event.get()] and the key state of [pygame.key.get_pressed()]. *)
Fixpoint main_loop (s : loop_state) (frames : list (list event * (key -> bool)))
    : list effect * outcome :=
  if running s then
    match frames with
    | [] => ([], Waiting)
    | (events, keys) :: rest =>
        let s := fold_left handle_event events s in
        let c := apply_move keys (cam s) in
        let (tr, out) := main_loop (Loop (running s) c) rest in
        (GLRender (frame_mvp c) :: tr, out)
    end
  else ([PygameQuit], Returned).

Section Loader.

(** The file system and the external OBJ parser: [os.path.exists] and
    the constructor [Wavefront(path, collect_faces=True, parse=True)],
    which returns a scene or raises. *)
Variable path_exists : string -> bool.
Variable Wavefront : string -> result scene.

(** numpy's conversions [np.array(rows, dtype='f4')] of a list of tuples
    and [np.array(indices, dtype='i4')] of a list of integers: each returns
    an array or raises (a ragged list of tuples gives ValueError). *)
Variable np_array_f4 : list (list R) -> result (list (list R)).
Variable np_array_i4 : list Z -> result (list Z).

(** The list [faces] after the two nested loops: every face of every mesh,
    in order, flattened. *)
Definition flat_faces (sc : scene) : list Z :=
  flat_map (fun name_mesh => List.concat (snd name_mesh)) (scene_meshes sc).

Definition load_obj (obj_path : string)
    : result (list (list R) * list Z) :=
  if negb (path_exists obj_path)
  then Raise (FileNotFoundError ("OBJ file not found: " ++ obj_path))
  else
    match Wavefront obj_path with
    | Raise e => Raise e
    | Ok scene =>
        match np_array_f4 (scene_vertices scene) with
        | Raise e => Raise e
        | Ok vertices =>
            let faces := flat_faces scene in
            match np_array_i4 faces with
            | Raise e => Raise e
            | Ok faces => Ok (vertices, faces)
            end
        end
    end.

(** [main]: the menu, the guarded call of [load_obj], then the GPU setup
    and the main loop.  The result is the list of effects in order and how
    the call ends. *)
Definition main (listing : list string) (menu_input : list (list event))
    (frames : list (list event * (key -> bool))) : list effect * outcome :=
  match obj_menu "OBJ_files" listing menu_input with
  | MenuRaise e => ([], Uncaught e)
  | MenuExit => ([PygameQuit], SysExit)
  | MenuWaiting => ([], Waiting)
  | MenuReturn obj_path =>
      match load_obj obj_path with
      | Raise e => ([Print ("Error loading OBJ: " ++ exn_str e)], Returned)
      | Ok (vertices, faces) =>
          let (tr, out) := main_loop (Loop true initial_camera) frames in
          (GLSetup vertices faces :: tr, out)
      end
  end.

End Loader.

Close Scope string_scope.

(** ** The specification's side of the comparisons *)

(** The entries the specification lists for the projection matrix. *)
Definition perspective_entry (f aspect near far : R) (i j : ix) : R :=
  match i, j with
  | i0, i0 => f / aspect
  | i1, i1 => f
  | i2, i2 => (far + near) / (near - far)
  | i2, i3 => (2 * far * near) / (near - far)
  | i3, i2 => -1
  | _, _ => 0
  end.

(** The entries the specification lists for the view matrix. *)
Definition look_at_entry (s u f eye : vec3) (i j : ix) : R :=
  match i, j with
  | i0, i0 => vx s
  | i0, i1 => vy s
  | i0, i2 => vz s
  | i0, i3 => - dot s eye
  | i1, i0 => vx u
  | i1, i1 => vy u
  | i1, i2 => vz u
  | i1, i3 => - dot u eye
  | i2, i0 => - vx f
  | i2, i1 => - vy f
  | i2, i2 => - vz f
  | i2, i3 => dot f eye
  | i3, i3 => 1
  | i3, _ => 0
  end.

(** The clamp of the specification, by cases: below the range the lower
    bound, above it the upper bound, inside it the value itself. *)
Definition clamp_spec (x lo hi : R) : R :=
  if Rlt_dec x lo then lo else if Rlt_dec hi x then hi else x.

(** The camera after each of a sequence of look updates, oldest first. *)
Fixpoint look_states (c : camera) (deltas : list (Z * Z)) : list camera :=
  match deltas with
  | [] => []
  | (mx, my) :: rest =>
      let c' := apply_look c mx my in c' :: look_states c' rest
  end.

(** The selected index is a valid position in a list of [n] files. *)
Definition index_in_range (n : Z) (st : menu_state) : Prop :=
  (0 <= selected_index st < n)%Z.

(** A key state with exactly one key held. *)
Definition only_forward (k : key) : bool :=
  match k with
  | K_w => true
  | _ => false
  end.

(** ** The floating-point reading

    The same functions on IEEE 754 values, for the inputs at which rounding
    decides the outcome.  binary64 (53 bits, numpy's float64 and Python's
    float) and binary32 (24 bits, [dtype='f4']) both round to nearest even;
    a value of either format is a [spec_float].  The results of [np.sin],
    [np.cos] and [np.tan] are taken as given numbers. *)

Module Fp.

Definition add64 := SFadd 53 1024.
Definition sub64 := SFsub 53 1024.
Definition mul64 := SFmul 53 1024.
Definition div64 := SFdiv 53 1024.
Definition sqrt64 := SFsqrt 53 1024.
Definition add32 := SFadd 24 128.
Definition mul32 := SFmul 24 128.

(** An integer as a float64. *)
Definition of_Z (z : Z) : spec_float := binary_normalize 53 1024 z 0 false.

(** The cast of a float64 to float32. *)
Definition to_f32 (x : spec_float) : spec_float :=
  match x with
  | S754_finite sg m e => binary_round 24 128 sg m e
  | _ => x
  end.

Definition zero : spec_float := S754_zero false.
Definition one : spec_float := of_Z 1.

(** [x != 0]; a NaN is different from 0. *)
Definition nonzero (x : spec_float) : bool := negb (SFeqb x zero).

(** [x < y] *)
Definition lt (x y : spec_float) : bool := SFltb x y.

Record fvec3 : Type := FV3 { fx : spec_float; fy : spec_float; fz : spec_float }.
Record fvec4 : Type :=
  FV4 { f0 : spec_float; f1 : spec_float; f2 : spec_float; f3 : spec_float }.
Record fmat4 : Type := FM4 { frow0 : fvec4; frow1 : fvec4; frow2 : fvec4; frow3 : fvec4 }.

Definition vadd64 (a b : fvec3) : fvec3 :=
  FV3 (add64 (fx a) (fx b)) (add64 (fy a) (fy b)) (add64 (fz a) (fz b)).

Definition vsub64 (a b : fvec3) : fvec3 :=
  FV3 (sub64 (fx a) (fx b)) (sub64 (fy a) (fy b)) (sub64 (fz a) (fz b)).

Definition vdiv64 (v : fvec3) (n : spec_float) : fvec3 :=
  FV3 (div64 (fx v) n) (div64 (fy v) n) (div64 (fz v) n).

Definition vneg (v : fvec3) : fvec3 := FV3 (SFopp (fx v)) (SFopp (fy v)) (SFopp (fz v)).

(** [np.dot] of two 3-vectors in float64, summed from the left. *)
Definition dot (a b : fvec3) : spec_float :=
  add64 (add64 (mul64 (fx a) (fx b)) (mul64 (fy a) (fy b))) (mul64 (fz a) (fz b)).

Definition cross (a b : fvec3) : fvec3 :=
  FV3 (sub64 (mul64 (fy a) (fz b)) (mul64 (fz a) (fy b)))
      (sub64 (mul64 (fz a) (fx b)) (mul64 (fx a) (fz b)))
      (sub64 (mul64 (fx a) (fy b)) (mul64 (fy a) (fx b))).

(** [np.linalg.norm]: the square root of [dot v v]. *)
Definition norm (v : fvec3) : spec_float := sqrt64 (dot v v).

Definition normalize (v : fvec3) : fvec3 :=
  let n := norm v in
  if nonzero n then vdiv64 v n else v.

(** [look_at]: the vectors are float64, the matrix [np.eye(4, dtype='f4')]
    stores what is assigned to it as float32. *)
Definition look_at (eye target up : fvec3) : fmat4 :=
  let f := normalize (vsub64 target eye) in
  let s := normalize (cross f up) in
  let u := cross s f in
  FM4 (FV4 (to_f32 (fx s)) (to_f32 (fy s)) (to_f32 (fz s))
           (to_f32 (SFopp (dot s eye))))
      (FV4 (to_f32 (fx u)) (to_f32 (fy u)) (to_f32 (fz u))
           (to_f32 (SFopp (dot u eye))))
      (FV4 (to_f32 (fx (vneg f))) (to_f32 (fy (vneg f))) (to_f32 (fz (vneg f)))
           (to_f32 (dot f eye)))
      (FV4 zero zero zero one).

(** [perspective], with [tan_half] the value of [np.tan(fovy / 2)]. *)
Definition perspective (tan_half aspect near far : spec_float) : fmat4 :=
  let f := div64 one tan_half in
  FM4 (FV4 (to_f32 (div64 f aspect)) zero zero zero)
      (FV4 zero (to_f32 f) zero zero)
      (FV4 zero zero
           (to_f32 (div64 (add64 far near) (sub64 near far)))
           (to_f32 (div64 (mul64 (mul64 (of_Z 2) far) near) (sub64 near far))))
      (FV4 zero zero (of_Z (-1)) zero).

(** A dot product of two 4-vectors in float32, summed from the left. *)
Definition dot4 (a b : fvec4) : spec_float :=
  add32 (add32 (add32 (mul32 (f0 a) (f0 b)) (mul32 (f1 a) (f1 b)))
               (mul32 (f2 a) (f2 b)))
        (mul32 (f3 a) (f3 b)).

Definition column (m : fmat4) (j : ix) : fvec4 :=
  let pick (r : fvec4) :=
    match j with
    | i0 => f0 r
    | i1 => f1 r
    | i2 => f2 r
    | i3 => f3 r
    end in
  FV4 (pick (frow0 m)) (pick (frow1 m)) (pick (frow2 m)) (pick (frow3 m)).

(** [a @ b] on two float32 matrices. *)
Definition matmul (a b : fmat4) : fmat4 :=
  let r (x : fvec4) :=
    FV4 (dot4 x (column b i0)) (dot4 x (column b i1))
        (dot4 x (column b i2)) (dot4 x (column b i3)) in
  FM4 (r (frow0 a)) (r (frow1 a)) (r (frow2 a)) (r (frow3 a)).

Definition mat_vec (m : fmat4) (p : fvec4) : fvec4 :=
  FV4 (dot4 (frow0 m) p) (dot4 (frow1 m) p) (dot4 (frow2 m) p) (dot4 (frow3 m) p).

Definition homogeneous (p : fvec3) : fvec4 := FV4 (fx p) (fy p) (fz p) one.

(** The constants of [main]: [0.1] and [100.0] are the doubles nearest to
    the decimals, [WIDTH / HEIGHT] is one float64 division. *)
Definition MOVE_SPEED : spec_float := div64 (of_Z 1) (of_Z 10).
Definition NEAR : spec_float := div64 (of_Z 1) (of_Z 10).
Definition FAR : spec_float := of_Z 100.
Definition aspect : spec_float := div64 (of_Z 1280) (of_Z 720).
Definition world_up : fvec3 := FV3 zero one zero.

(** The values of [np.sin] and [np.cos] at the yaw and the pitch. *)
Record trig : Type := Trig {
  sin_yaw : spec_float; cos_yaw : spec_float;
  sin_pitch : spec_float; cos_pitch : spec_float
}.

(** The "Render" block: [cam_pos] is a float32 array, the target and the
    vectors of [look_at] are float64, [proj], [view] and their product are
    float32. *)
Definition frame_target (cam_pos : fvec3) (t : trig) : fvec3 :=
  vadd64 cam_pos
         (FV3 (mul64 (sin_yaw t) (cos_pitch t)) (sin_pitch t)
              (mul64 (cos_yaw t) (cos_pitch t))).

Definition frame_view (cam_pos : fvec3) (t : trig) : fmat4 :=
  look_at cam_pos (frame_target cam_pos t) world_up.

Definition frame_mvp (tan_half : spec_float) (cam_pos : fvec3) (t : trig) : fmat4 :=
  matmul (perspective tan_half aspect NEAR FAR) (frame_view cam_pos t).

(** [forward = np.array([sin(yaw), 0, cos(yaw)], dtype='f4')] and, with W
    held, [cam_pos += forward * MOVE_SPEED] on the float32 array. *)
Definition forward_of (t : trig) : fvec3 :=
  FV3 (to_f32 (sin_yaw t)) zero (to_f32 (cos_yaw t)).

Definition step_forward (cam_pos : fvec3) (t : trig) : fvec3 :=
  let forward := forward_of t in
  let m := to_f32 MOVE_SPEED in
  FV3 (add32 (fx cam_pos) (mul32 (fx forward) m))
      (add32 (fy cam_pos) (mul32 (fy forward) m))
      (add32 (fz cam_pos) (mul32 (fz forward) m)).

(** Some float64 numbers by their bits: [1e-200], [1e200], and the values
    of [sin] and [cos] at 2.5 and of [tan] at [np.radians(60) / 2]. *)
Definition d1em200 : spec_float := S754_finite false 6894565328877484 (-717).
Definition d1e200 : spec_float := S754_finite false 5883593420661338 612.
Definition sin_2_5 : spec_float := S754_finite false 5390557850356401 (-53).
Definition cos_2_5 : spec_float := S754_finite true 7216060176894845 (-53).
Definition tan_30_degrees : spec_float := S754_finite false 5200308914369308 (-53).

(** The angles yaw = 0 and yaw = 2.5, both with pitch = 0. *)
Definition trig_yaw_0 : trig := Trig zero one zero one.
Definition trig_yaw_2_5 : trig := Trig sin_2_5 cos_2_5 zero one.

End Fp.

(** ** Vocabulary for the properties of the loops *)

(** The events that clear [running] in the main loop. *)
Definition is_quit_event (ev : event) : bool :=
  match ev with
  | QUIT => true
  | KEYDOWN K_ESCAPE => true
  | _ => false
  end.

(** The sum of the horizontal mouse deltas of a list of events. *)
Fixpoint mouse_dx (evs : list event) : Z :=
  match evs with
  | [] => 0%Z
  | MOUSEMOTION (mx, _) :: rest => (mx + mouse_dx rest)%Z
  | _ :: rest => mouse_dx rest
  end.


(** A key state with exactly W and D held. *)
Definition forward_and_right (k : key) : bool :=
  match k with
  | K_w => true
  | K_d => true
  | _ => false
  end.

Definition frame_quits (fr : list event * (key -> bool)) : bool :=
  existsb is_quit_event (fst fr).

Definition is_render (e : effect) : bool :=
  match e with
  | GLRender _ => true
  | _ => false
  end.

(** In the menu: Down presses minus Up presses, and the presence of Return
    and of QUIT, in a list of events. *)
Fixpoint menu_shift (evs : list event) : Z :=
  match evs with
  | [] => 0%Z
  | KEYDOWN K_DOWN :: rest => (menu_shift rest + 1)%Z
  | KEYDOWN K_UP :: rest => (menu_shift rest - 1)%Z
  | _ :: rest => menu_shift rest
  end.

Definition is_return (ev : event) : bool :=
  match ev with
  | KEYDOWN K_RETURN => true
  | _ => false
  end.

Definition is_menu_quit (ev : event) : bool :=
  match ev with
  | QUIT => true
  | _ => false
  end.


(** ** Facts about vectors *)

Lemma dot_self_nonneg (v : vec3) : 0 <= dot v v.
Proof. unfold dot. nra. Qed.

Lemma dot_self_zero (v : vec3) : dot v v = 0 -> v = vzero.
Proof.
  destruct v as [x y z]. unfold dot, vzero. simpl. intros H.
  assert (x = 0) by nra. assert (y = 0) by nra. assert (z = 0) by nra.
  subst. reflexivity.
Qed.

Lemma norm_nonneg (v : vec3) : 0 <= norm v.
Proof. apply sqrt_pos. Qed.

Lemma norm_sqr (v : vec3) : norm v * norm v = dot v v.
Proof. unfold norm. apply sqrt_sqrt, dot_self_nonneg. Qed.

Lemma norm_zero_iff (v : vec3) : norm v = 0 <-> v = vzero.
Proof.
  split.
  - intros H. apply dot_self_zero. rewrite <- norm_sqr, H. ring.
  - intros ->. unfold norm, dot, vzero. simpl.
    replace (0 * 0 + 0 * 0 + 0 * 0) with 0 by ring. apply sqrt_0.
Qed.

Lemma norm_of_unit_dot (v : vec3) : dot v v = 1 -> norm v = 1.
Proof. intros H. unfold norm. rewrite H. apply sqrt_1. Qed.

Lemma dot_vdiv (v : vec3) (n : R) :
  n <> 0 -> dot (vdiv v n) (vdiv v n) = dot v v / (n * n).
Proof. intros Hn. unfold dot, vdiv. simpl. field. exact Hn. Qed.

Lemma norm_vdiv_norm (v : vec3) : norm v <> 0 -> norm (vdiv v (norm v)) = 1.
Proof.
  intros Hn. apply norm_of_unit_dot. rewrite dot_vdiv by exact Hn.
  rewrite norm_sqr. field. rewrite <- norm_sqr. nra.
Qed.

Lemma normalize_with_nonzero (dv : vec3 -> R -> vec3) (v : vec3) :
  norm v <> 0 -> normalize_with dv v = dv v (norm v).
Proof.
  intros Hn. unfold normalize_with. destruct (Rne_dec (norm v) 0) as [_|E].
  - reflexivity.
  - contradiction.
Qed.

Lemma normalize_with_zero (dv : vec3 -> R -> vec3) (v : vec3) :
  norm v = 0 -> normalize_with dv v = v.
Proof.
  intros Hn. unfold normalize_with. destruct (Rne_dec (norm v) 0) as [N|_].
  - contradiction.
  - reflexivity.
Qed.

Lemma vdiv_vscale (v : vec3) (n : R) : vdiv v n = vscale v (/ n).
Proof. reflexivity. Qed.

(** C1, amended: with the components read as real numbers, [normalize v]
    is [v] scaled by the positive factor [1 / norm v] and has length 1
    whenever [norm v] is not zero, which is the case for every [v] other than
    the zero vector; when [norm v] is zero the result is [v] itself whatever
    the division operation would do, so no division takes part in it, and
    the zero vector is returned as it is.  Float64 inputs whose norm underflows or
    overflows are treated apart, on the module [Fp]. *)
Theorem normalize_unit_or_unchanged (v : vec3) :
  (norm v <> 0 ->
     normalize v = vscale v (/ norm v) /\ 0 < / norm v /\
     norm (normalize v) = 1) /\
  (v <> vzero -> norm (normalize v) = 1) /\
  (norm v = 0 -> forall dv, normalize_with dv v = v) /\
  normalize vzero = vzero.
Proof.
  assert (Hnz : norm v <> 0 ->
     normalize v = vscale v (/ norm v) /\ 0 < / norm v /\
     norm (normalize v) = 1).
  { intros Hn. unfold normalize. rewrite normalize_with_nonzero by exact Hn.
    split; [apply vdiv_vscale|]. split.
    - apply Rinv_0_lt_compat. pose proof (norm_nonneg v). lra.
    - apply norm_vdiv_norm, Hn. }
  split; [exact Hnz|]. split; [|split].
  - intros Hv. apply Hnz. intros Hn. apply Hv, norm_zero_iff, Hn.
  - intros Hn dv. apply normalize_with_zero, Hn.
  - apply normalize_with_zero. apply norm_zero_iff. reflexivity.
Qed.

Lemma normalize_of_unit (v : vec3) : dot v v = 1 -> normalize v = v.
Proof.
  intros H. pose proof (norm_of_unit_dot v H) as Hn.
  unfold normalize. rewrite normalize_with_nonzero by (rewrite Hn; lra).
  rewrite Hn. destruct v as [x y z]. unfold vdiv. simpl.
  f_equal; field.
Qed.

Lemma norm_normalize (v : vec3) : v <> vzero -> norm (normalize v) = 1.
Proof.
  intros Hv. unfold normalize. 
  assert (Hn : norm v <> 0) by (intros E; apply Hv, norm_zero_iff, E).
  rewrite normalize_with_nonzero by exact Hn. apply norm_vdiv_norm, Hn.
Qed.

(** ** The projection matrix *)

Lemma sqrt3_bounds : 1.7315 < sqrt 3 < 1.7325.
Proof.
  assert (H3 : sqrt 3 * sqrt 3 = 3) by (apply sqrt_sqrt; lra).
  assert (Hp : 0 <= sqrt 3) by apply sqrt_pos.
  split; nra.
Qed.

Lemma inv_tan_30_degrees : 1 / tan (radians 60 / 2) = sqrt 3.
Proof.
  replace (radians 60 / 2) with (PI / 6) by (unfold radians; field).
  rewrite tan_PI6. field.
  pose proof sqrt3_bounds. lra.
Qed.

Lemma tan_half_fovy_pos (fovy : R) : 0 < fovy < PI -> 0 < tan (fovy / 2).
Proof. intros [H0 H1]. apply tan_gt_0; lra. Qed.

(** C2: for fovy in (0, pi), aspect > 0 and 0 < near < far the factor
    f = 1 / tan (fovy / 2) is a positive number, the denominator near - far
    is not zero, and every entry of [perspective fovy aspect near far] is the
    one listed: f / aspect, f, (far + near) / (near - far),
    (2 far near) / (near - far), the bottom row 0 0 -1 0 and zero elsewhere.
    At 60 degrees, 16/9, 0.1, 100 the entry [1][1] is 1 / tan (30 degrees),
    within 0.001 of 1.732, and the entry [0][0] is that divided by the aspect,
    within 0.001 of 0.974. *)
Theorem perspective_matrix_entries :
  (forall fovy aspect near far : R,
     0 < fovy < PI -> 0 < aspect -> 0 < near < far ->
     let f := 1 / tan (fovy / 2) in
     0 < f /\ near - far <> 0 /\
     (forall i j, entry (perspective fovy aspect near far) i j =
                  perspective_entry f aspect near far i j) /\
     row3 (perspective fovy aspect near far) = V4 0 0 (-1) 0) /\
  (let m := perspective (radians 60) (16 / 9) 0.1 100 in
   entry m i1 i1 = 1 / tan (radians 30) /\
   Rabs (entry m i1 i1 - 1.732) < 0.001 /\
   entry m i0 i0 = entry m i1 i1 / (16 / 9) /\
   Rabs (entry m i0 i0 - 0.974) < 0.001).
Proof.
  split.
  - intros fovy aspect near far Hf Ha Hn f. repeat split.
    + unfold f. apply Rdiv_lt_0_compat; [lra | apply tan_half_fovy_pos, Hf].
    + lra.
    + intros i j. destruct i, j; reflexivity.
  - pose proof sqrt3_bounds as Hs. pose proof inv_tan_30_degrees as Ht.
    cbv zeta. unfold entry, perspective. simpl.
    rewrite Ht. repeat split.
    + rewrite <- Ht. f_equal. f_equal. unfold radians. field.
    + apply Rabs_def1; lra.
    + apply Rabs_def1; lra.
Qed.

(** The source's own call, with [aspect = WIDTH / HEIGHT]. *)
Lemma frame_proj_entries :
  frame_proj =
  M4 (V4 (sqrt 3 / (16 / 9)) 0 0 0) (V4 0 (sqrt 3) 0 0)
     (V4 0 0 (- (1001 / 999)) (- (200 / 999))) (V4 0 0 (-1) 0).
Proof.
  unfold frame_proj, perspective, WIDTH, HEIGHT, NEAR, FAR.
  rewrite inv_tan_30_degrees.
  f_equal; apply f_equal4;
    match goal with
    | |- ?a = ?b => first [constr_eq a b; reflexivity | lra | field]
    end.
Qed.

(** ** The view matrix *)

Lemma look_at_unfold (eye target up : vec3) :
  let f := normalize (vsub target eye) in
  let s := normalize (cross f up) in
  let u := cross s f in
  look_at eye target up =
  M4 (V4 (vx s) (vy s) (vz s) (- dot s eye))
     (V4 (vx u) (vy u) (vz u) (- dot u eye))
     (V4 (- vx f) (- vy f) (- vz f) (dot f eye))
     (V4 0 0 0 1).
Proof. reflexivity. Qed.

Lemma vsub_zero_eq (a b : vec3) : vsub a b = vzero -> b = a.
Proof.
  destruct a, b. unfold vsub, vzero. simpl. intros H. inversion H.
  f_equal; lra.
Qed.

Lemma dot_cross_left (a b : vec3) : dot (cross a b) a = 0.
Proof. unfold dot, cross. simpl. ring. Qed.

Lemma dot_vdiv_left (a b : vec3) (n : R) : dot (vdiv a n) b = dot a b / n.
Proof. unfold dot, vdiv. simpl. unfold Rdiv. ring. Qed.

(** Lagrange's identity for the cross product. *)
Lemma dot_cross_cross (a b : vec3) :
  dot (cross a b) (cross a b) = dot a a * dot b b - dot a b * dot a b.
Proof. unfold dot, cross. simpl. ring. Qed.

(** C3: for every eye, target and up, so in particular for eye <> target
    and up not parallel to the forward direction, [look_at eye target up] is
    the matrix with rows [s, -dot s eye], [u, -dot u eye], [-f, dot f eye]
    and [0, 0, 0, 1], for f = normalize (target - eye),
    s = normalize (cross f up) and u = cross s f; for eye = (0,0,0),
    target = (0,0,-1), up = (0,1,0) the result is the identity matrix:
    identity rotation, zero translation. *)
Theorem look_at_rows :
  (forall eye target up : vec3,
     let f := normalize (vsub target eye) in
     let s := normalize (cross f up) in
     let u := cross s f in
     look_at eye target up =
       M4 (V4 (vx s) (vy s) (vz s) (- dot s eye))
          (V4 (vx u) (vy u) (vz u) (- dot u eye))
          (V4 (- vx f) (- vy f) (- vz f) (dot f eye))
          (V4 0 0 0 1) /\
     forall i j, entry (look_at eye target up) i j =
                 look_at_entry s u f eye i j) /\
  look_at (V3 0 0 0) (V3 0 0 (-1)) (V3 0 1 0) = eye4.
Proof.
  split.
  - intros eye target up f s u. split; [apply look_at_unfold|].
    intros i j.
    rewrite (look_at_unfold eye target up). cbv zeta. fold f s u.
    destruct i, j; reflexivity.
  - assert (Hf : normalize (vsub (V3 0 0 (-1)) (V3 0 0 0)) = V3 0 0 (-1)).
    { rewrite normalize_of_unit.
      - unfold vsub. simpl. f_equal; ring.
      - unfold dot, vsub. simpl. ring. }
    assert (Hs : normalize (cross (V3 0 0 (-1)) (V3 0 1 0)) = V3 1 0 0).
    { rewrite normalize_of_unit.
      - unfold cross. simpl. f_equal; ring.
      - unfold dot, cross. simpl. ring. }
    rewrite look_at_unfold. cbv zeta. rewrite Hf, Hs.
    unfold eye4, cross, dot. simpl. f_equal; f_equal; ring.
Qed.

(** ** The eye under the combined matrix *)

Lemma view_of_eye (eye target up : vec3) :
  mat_vec (look_at eye target up) (homogeneous eye) = V4 0 0 0 1.
Proof.
  rewrite look_at_unfold. cbv zeta.
  unfold mat_vec, homogeneous, dot4, dot. simpl. f_equal; ring.
Qed.

Lemma matmul_mat_vec (a b : mat4) (p : vec4) :
  mat_vec (matmul a b) p = mat_vec a (mat_vec b p).
Proof.
  destruct a as [[] [] [] []], b as [[] [] [] []], p.
  unfold mat_vec, matmul, dot4, column, entry, row, col. simpl.
  f_equal; ring.
Qed.

Lemma mvp_of_eye (fovy aspect near far : R) (eye target up : vec3) :
  mat_vec (matmul (perspective fovy aspect near far) (look_at eye target up))
          (homogeneous eye) =
  V4 0 0 ((2 * far * near) / (near - far)) 0.
Proof.
  rewrite matmul_mat_vec, view_of_eye.
  unfold mat_vec, perspective, dot4. simpl. f_equal; ring.
Qed.

(** C7, amended: in exact real arithmetic, for every camera state the view
    matrix of the frame sends the eye to the view-space origin, and the
    combined matrix [proj @ view] sends it to the clip-space point
    (0, 0, -200/999, 0), which fails the near-plane test -w < z: the eye lies
    behind the near plane, not in front of it.  The float32 matrices at a far-away
    camera are treated apart, on the module [Fp]. *)
Theorem eye_behind_near_plane (c : camera) :
  let p := mat_vec (frame_mvp c) (homogeneous (cam_pos c)) in
  mat_vec (frame_view c) (homogeneous (cam_pos c)) = V4 0 0 0 1 /\
  p = V4 0 0 (- (200 / 999)) 0 /\
  behind_or_on_near_plane p /\
  ~ (- c3 p < c2 p).
Proof.
  cbv zeta. split; [unfold frame_view; exact (view_of_eye _ _ _)|].
  assert (Hp : mat_vec (frame_mvp c) (homogeneous (cam_pos c)) =
               V4 0 0 (- (200 / 999)) 0).
  { unfold frame_mvp, frame_proj, frame_view. rewrite mvp_of_eye.
    unfold NEAR, FAR. f_equal. lra. }
  rewrite Hp. unfold behind_or_on_near_plane. cbn [c2 c3].
  split; [reflexivity|]. split; lra.
Qed.

(** ** The look update *)

Lemma half_pi_bounds : 3 / 2 < PI / 2 <= 2.
Proof. split; [exact PI2_3_2 | pose proof PI_4; lra]. Qed.

Lemma clip_range (x lo hi : R) : lo <= hi -> lo <= clip x lo hi <= hi.
Proof.
  intros H. unfold clip, Rmin, Rmax.
  destruct (Rle_dec x lo); destruct (Rle_dec _ hi); lra.
Qed.

Lemma clip_clamp_spec (x lo hi : R) :
  lo <= hi -> clip x lo hi = clamp_spec x lo hi.
Proof.
  intros H. unfold clip, clamp_spec, Rmin, Rmax.
  destruct (Rle_dec x lo); destruct (Rle_dec _ hi);
    destruct (Rlt_dec x lo); destruct (Rlt_dec hi x); lra.
Qed.

Lemma pitch_range_nonempty : - PI / 2 <= PI / 2.
Proof. pose proof half_pi_bounds. lra. Qed.

Lemma apply_look_pitch_range (c : camera) (mx my : Z) :
  - PI / 2 <= pitch (apply_look c mx my) <= PI / 2.
Proof. unfold apply_look. cbn [pitch]. apply clip_range, pitch_range_nonempty. Qed.

(** C4, as the claim states it, fails: from the initial camera one mouse
    motion of 1000 pixels downwards puts the pitch exactly on the upper
    bound pi/2, which is not inside the open range. *)
Lemma pitch_reaches_bound :
  pitch (apply_look initial_camera 0 1000) = PI / 2 /\
  ~ (- PI / 2 < pitch (apply_look initial_camera 0 1000) < PI / 2).
Proof.
  assert (H : pitch (apply_look initial_camera 0 1000) = PI / 2).
  { pose proof half_pi_bounds as Hb.
    unfold apply_look, initial_camera, LOOK_SPEED, clip. cbn [pitch].
    rewrite Rmax_left by lra. apply Rmin_right. lra. }
  split; [exact H|]. rewrite H. lra.
Qed.

(** C4, amended: after each call of any sequence of look updates, from any
    camera state, the pitch lies in the closed range [-pi/2, pi/2]. *)
Theorem pitch_in_closed_range (c : camera) (deltas : list (Z * Z)) :
  Forall (fun c' => - PI / 2 <= pitch c' <= PI / 2) (look_states c deltas).
Proof.
  revert c. induction deltas as [|[mx my] rest IH]; intros c; simpl.
  - constructor.
  - constructor.
    + apply apply_look_pitch_range.
    + apply IH.
Qed.

(** C5: one look update with deltas (mx, my) gives
    yaw' = yaw - mx * LOOK_SPEED and
    pitch' = clamp (pitch + my * LOOK_SPEED) to [-pi/2, pi/2], leaves the
    position as it is, and is all that a mouse-motion event does to the state
    of the loop: the running flag is kept. *)
Theorem look_update_effect (c : camera) (mx my : Z) :
  yaw (apply_look c mx my) = yaw c - IZR mx * LOOK_SPEED /\
  pitch (apply_look c mx my) =
    clamp_spec (pitch c + IZR my * LOOK_SPEED) (- (PI / 2)) (PI / 2) /\
  cam_pos (apply_look c mx my) = cam_pos c /\
  (forall s : loop_state,
     handle_event s (MOUSEMOTION (mx, my)) =
     Loop (running s) (apply_look (cam s) mx my)).
Proof.
  repeat split.
  unfold apply_look. cbn [pitch].
  rewrite clip_clamp_spec by apply pitch_range_nonempty.
  f_equal. lra.
Qed.

(** ** The move update *)

Lemma apply_move_only_forward (c : camera) :
  apply_move only_forward c =
  Camera (vadd (cam_pos c) (vscale (forward_of (yaw c)) MOVE_SPEED))
         (yaw c) (pitch c).
Proof. reflexivity. Qed.

(** C6, amended: the movement-forward vector is (sin yaw, 0, cos yaw),
    whatever the pitch; with the position read as real numbers, a move
    update with only the forward key held adds that vector times MOVE_SPEED
    to the position, so the y-component and the angles are unchanged, and for
    yaw = 0 the z-component strictly increases.  The float32 position at
    z = 2^21 is treated apart, on the module [Fp]. *)
Theorem forward_move_is_horizontal (c : camera) :
  forward_of (yaw c) = V3 (sin (yaw c)) 0 (cos (yaw c)) /\
  cam_pos (apply_move only_forward c) =
    vadd (cam_pos c) (vscale (V3 (sin (yaw c)) 0 (cos (yaw c))) MOVE_SPEED) /\
  vy (cam_pos (apply_move only_forward c)) = vy (cam_pos c) /\
  yaw (apply_move only_forward c) = yaw c /\
  pitch (apply_move only_forward c) = pitch c /\
  (yaw c = 0 ->
   vz (cam_pos c) < vz (cam_pos (apply_move only_forward c))).
Proof.
  rewrite apply_move_only_forward. cbn [cam_pos yaw pitch].
  repeat split.
  - unfold vadd, vscale, forward_of. cbn [vx vy vz]. ring.
  - intros Hy. rewrite Hy. unfold vadd, vscale, forward_of, MOVE_SPEED.
    cbn [vx vy vz]. rewrite cos_0. lra.
Qed.

(** The strict increase at yaw = 0, with the camera looking up. *)
Lemma forward_move_is_horizontal_witness :
  vz (cam_pos (Camera (V3 0 1 4) 0 1)) <
  vz (cam_pos (apply_move only_forward (Camera (V3 0 1 4) 0 1))).
Proof.
  refine (proj2 (proj2 (proj2 (proj2 (proj2
            (forward_move_is_horizontal (Camera (V3 0 1 4) 0 1)))))) _).
  reflexivity.
Defined.

(** ** The right vector *)

Lemma dot_forward (y : R) : dot (forward_of y) (forward_of y) = 1.
Proof.
  unfold dot, forward_of. cbn [vx vy vz].
  pose proof (sin2_cos2 y) as H. unfold Rsqr in H. lra.
Qed.

Lemma cross_forward_up (y : R) :
  cross (forward_of y) world_up = V3 (- cos y) 0 (sin y).
Proof. unfold cross, forward_of, world_up. cbn [vx vy vz]. f_equal; ring. Qed.

Lemma dot_cross_forward_up (y : R) :
  dot (cross (forward_of y) world_up) (cross (forward_of y) world_up) = 1.
Proof.
  rewrite cross_forward_up. unfold dot. cbn [vx vy vz].
  pose proof (sin2_cos2 y) as H. unfold Rsqr in H. lra.
Qed.

(** C9: for every yaw the forward vector has length 1 and zero y-component;
    its cross product with (0,1,0) is (-cos yaw, 0, sin yaw), of length 1 and
    not the zero vector; so [normalize] takes its division branch, whatever
    the division, and the right vector is that same horizontal vector, of
    length 1. *)
Theorem right_vector_is_unit (y : R) :
  norm (forward_of y) = 1 /\ vy (forward_of y) = 0 /\
  cross (forward_of y) world_up = V3 (- cos y) 0 (sin y) /\
  norm (cross (forward_of y) world_up) = 1 /\
  cross (forward_of y) world_up <> vzero /\
  (forall dv, right_with dv y =
              dv (cross (forward_of y) world_up)
                 (norm (cross (forward_of y) world_up))) /\
  right_of y = V3 (- cos y) 0 (sin y) /\
  norm (right_of y) = 1 /\ vy (right_of y) = 0.
Proof.
  pose proof (norm_of_unit_dot _ (dot_cross_forward_up y)) as Hn.
  assert (Hr : right_of y = V3 (- cos y) 0 (sin y)).
  { unfold right_of, right_with. fold (normalize (cross (forward_of y) world_up)).
    rewrite normalize_of_unit by apply dot_cross_forward_up.
    apply cross_forward_up. }
  split; [apply norm_of_unit_dot, dot_forward|].
  split; [reflexivity|].
  split; [apply cross_forward_up|].
  split; [exact Hn|].
  split.
  { intros E. apply norm_zero_iff in E. lra. }
  split.
  { intros dv. unfold right_with. apply normalize_with_nonzero. lra. }
  split; [exact Hr|].
  split.
  - rewrite Hr, <- cross_forward_up. exact Hn.
  - rewrite Hr. reflexivity.
Qed.

(** ** The file-selection menu *)

Lemma menu_event_in_range (n : Z) (st st' : menu_state) (ev : event) :
  (0 < n)%Z -> index_in_range n st ->
  menu_event n st ev = Some st' -> index_in_range n st'.
Proof.
  unfold index_in_range. intros Hn Hst H.
  destruct ev as [|k|rel|]; simpl in H.
  - discriminate.
  - destruct k; inversion H; subst; cbn [selected_index];
      try exact Hst; apply Z.mod_pos_bound, Hn.
  - inversion H; subst; exact Hst.
  - inversion H; subst; exact Hst.
Qed.

Lemma menu_events_in_range (n : Z) (evs : list event) :
  (0 < n)%Z -> forall st st', index_in_range n st ->
  menu_events n st evs = Some st' -> index_in_range n st'.
Proof.
  intros Hn. induction evs as [|ev rest IH]; intros st st' Hst H; simpl in H.
  - inversion H; subst. exact Hst.
  - destruct (menu_event n st ev) as [st1|] eqn:E; [|discriminate].
    apply (IH st1 st'); [|exact H].
    apply (menu_event_in_range n st st1 ev Hn Hst E).
Qed.

Lemma menu_loop_in_range (n : Z) (batches : list (list event)) :
  (0 < n)%Z -> forall st st', index_in_range n st ->
  menu_loop n st batches = Done st' -> index_in_range n st'.
Proof.
  intros Hn. induction batches as [|b rest IH]; intros st st' Hst H.
  - simpl in H. destruct (menu_active st); [discriminate|].
    inversion H; subst. exact Hst.
  - simpl in H. destruct (menu_active st).
    + destruct (menu_events n st b) as [st1|] eqn:E; [|discriminate].
      apply (IH st1 st'); [|exact H].
      apply (menu_events_in_range n b Hn st st1 Hst E).
    + inversion H; subst. exact Hst.
Qed.

Lemma py_index_in_range {A : Type} (l : list A) (i : Z) :
  (0 <= i < Z.of_nat (List.length l))%Z ->
  exists a, py_index l i = Ok a /\ In a l.
Proof.
  intros [H0 H1]. unfold py_index.
  destruct (Z.ltb_spec i 0) as [Hneg|_]; [lia|].
  destruct (Z.ltb_spec i 0) as [Hneg|_]; [lia|].
  destruct (Z.leb_spec (Z.of_nat (List.length l)) i) as [Hbig|_]; [lia|].
  cbn [orb].
  destruct (nth_error l (Z.to_nat i)) as [a|] eqn:E.
  - exists a. split; [reflexivity|]. apply (nth_error_In l (Z.to_nat i)), E.
  - apply nth_error_None in E. lia.
Qed.

Lemma wrap_up (n : Z) : (0 < n)%Z -> ((0 - 1) mod n = n - 1)%Z.
Proof.
  intros Hn. symmetry. apply (Z.mod_unique_pos _ _ (-1)); lia.
Qed.

Lemma wrap_down (n : Z) : (0 < n)%Z -> ((n - 1 + 1) mod n = 0)%Z.
Proof.
  intros Hn. replace (n - 1 + 1)%Z with n by lia. apply Z_mod_same_full.
Qed.

Lemma menu_shift_app (a b : list event) :
  menu_shift (a ++ b) = (menu_shift a + menu_shift b)%Z.
Proof.
  induction a as [|ev rest IH]; cbn [app menu_shift].
  - reflexivity.
  - destruct ev as [|k|rel|]; try destruct k; rewrite ?IH; lia.
Qed.

Lemma menu_events_closed_form (n : Z) (evs : list event) :
  (0 < n)%Z -> forall st, index_in_range n st ->
  existsb is_menu_quit evs = false ->
  menu_events n st evs =
  Some (Menu ((selected_index st + menu_shift evs) mod n)
             (menu_active st && negb (existsb is_return evs))).
Proof.
  intros Hn. induction evs as [|ev rest IH]; intros [i a] Hst Hq;
    unfold index_in_range in Hst; cbn [selected_index menu_active] in *.
  - cbn [menu_events menu_shift existsb negb]. rewrite Z.add_0_r.
    rewrite Z.mod_small by exact Hst. rewrite andb_true_r. reflexivity.
  - cbn [existsb] in Hq. apply orb_false_iff in Hq. destruct Hq as [Hev Hq].
    assert (Hmod : forall d : Z,
      (((i + d) mod n + menu_shift rest) mod n =
       (i + (menu_shift rest + d)) mod n)%Z).
    { intros d. rewrite Zplus_mod_idemp_l. f_equal. lia. }
    assert (Hr : forall d : Z, index_in_range n (Menu ((i + d) mod n) a)).
    { intros d. unfold index_in_range. cbn [selected_index].
      apply Z.mod_pos_bound, Hn. }
    destruct ev as [|k|rel|]; [discriminate| | |];
      try destruct k;
      cbn [menu_events menu_event menu_shift existsb is_return orb negb
           selected_index menu_active];
      try (rewrite (IH (Menu i a) Hst Hq);
           cbn [selected_index menu_active]; reflexivity).
    + replace (i - 1)%Z with (i + -1)%Z by lia.
      rewrite (IH (Menu ((i + -1) mod n) a) (Hr (-1)%Z) Hq).
      cbn [selected_index menu_active].
      rewrite (Hmod (-1)%Z). reflexivity.
    + rewrite (IH (Menu ((i + 1) mod n) a) (Hr 1%Z) Hq).
      cbn [selected_index menu_active]. rewrite (Hmod 1%Z). reflexivity.
    + rewrite (IH (Menu i false) Hst Hq).
      cbn [selected_index menu_active]. rewrite andb_false_r. reflexivity.
Qed.

Lemma menu_events_quit (n : Z) (evs : list event) :
  existsb is_menu_quit evs = true ->
  forall st, menu_events n st evs = None.
Proof.
  induction evs as [|ev rest IH]; intros Hq st; [discriminate|].
  cbn [existsb] in Hq. cbn [menu_events].
  destruct ev as [|k|rel|]; [reflexivity| | |]; cbn [is_menu_quit orb] in Hq.
  - destruct (menu_event n st (KEYDOWN k)) as [st'|] eqn:E.
    + apply IH, Hq.
    + reflexivity.
  - apply IH, Hq.
  - apply IH, Hq.
Qed.

Lemma menu_loop_inactive (n : Z) (i : Z) (batches : list (list event)) :
  menu_loop n (Menu i false) batches = Done (Menu i false).
Proof. destruct batches; reflexivity. Qed.

(** A batch with neither QUIT nor Return. *)
Lemma menu_loop_skip (n : Z) (pre tail : list (list event)) :
  (0 < n)%Z ->
  forallb (fun b => negb (existsb is_menu_quit b) && negb (existsb is_return b))
          pre = true ->
  forall i, (0 <= i < n)%Z ->
  menu_loop n (Menu i true) (pre ++ tail) =
  menu_loop n (Menu ((i + menu_shift (List.concat pre)) mod n) true) tail.
Proof.
  intros Hn. induction pre as [|b pre IH]; intros Hpre i Hi.
  - cbn [app List.concat menu_shift]. rewrite Z.add_0_r, Z.mod_small by exact Hi.
    reflexivity.
  - cbn [forallb] in Hpre. apply andb_true_iff in Hpre.
    destruct Hpre as [Hb Hpre]. apply andb_true_iff in Hb.
    destruct Hb as [Hbq Hbr]. apply negb_true_iff in Hbq, Hbr.
    cbn [app List.concat menu_loop menu_active].
    rewrite (menu_events_closed_form n b Hn (Menu i true) Hi Hbq).
    cbn [selected_index menu_active]. rewrite Hbr. cbn [negb andb].
    rewrite (IH Hpre) by (apply Z.mod_pos_bound, Hn).
    rewrite menu_shift_app, Zplus_mod_idemp_l. f_equal. f_equal. f_equal. lia.
Qed.

Lemma py_index_nth {A : Type} (l : list A) (i : Z) (d : A) :
  (0 <= i < Z.of_nat (List.length l))%Z ->
  py_index l i = Ok (nth (Z.to_nat i) l d).
Proof.
  intros [H0 H1]. unfold py_index.
  destruct (Z.ltb_spec i 0) as [Hneg|_]; [lia|].
  destruct (Z.ltb_spec i 0) as [Hneg|_]; [lia|].
  destruct (Z.leb_spec (Z.of_nat (List.length l)) i) as [Hbig|_]; [lia|].
  cbn [orb]. rewrite (nth_error_nth' l d) by lia. reflexivity.
Qed.

Lemma obj_menu_confirmed (folder : string) (listing : list string)
    (pre rest : list (list event)) (b : list event) :
  let obj_files := filter is_obj listing in
  let n := Z.of_nat (List.length obj_files) in
  obj_files <> [] ->
  forallb (fun b => negb (existsb is_menu_quit b) && negb (existsb is_return b))
          pre = true ->
  existsb is_menu_quit b = false ->
  existsb is_return b = true ->
  obj_menu folder listing (pre ++ b :: rest) =
  MenuReturn
    (os_path_join folder
       (nth (Z.to_nat (menu_shift (List.concat pre ++ b) mod n)) obj_files
            ""%string)).
Proof.
  intros obj_files n Hne Hpre Hbq Hbr. subst n obj_files.
  unfold obj_menu.
  remember (filter is_obj listing) as files eqn:Ef.
  destruct files as [|f0 fs]; [contradiction|].
  set (n := Z.of_nat (List.length (f0 :: fs))).
  assert (Hn : (0 < n)%Z) by (unfold n; cbn [List.length]; lia).
  unfold initial_menu.
  rewrite (menu_loop_skip n pre (b :: rest) Hn Hpre 0%Z) by lia.
  cbn [menu_loop menu_active].
  rewrite (menu_events_closed_form n b Hn)
    by (try exact Hbq; unfold index_in_range; cbn [selected_index];
        apply Z.mod_pos_bound, Hn).
  cbn [selected_index menu_active]. rewrite Hbr. cbn [negb andb].
  rewrite menu_loop_inactive. cbn [selected_index].
  rewrite Zplus_mod_idemp_l, Z.add_0_l, <- menu_shift_app.
  rewrite (py_index_nth (f0 :: fs) _ ""%string)
    by (apply Z.mod_pos_bound, Hn).
  reflexivity.
Qed.

(** C10: when the folder lists no .obj file the menu raises
    FileNotFoundError and returns nothing.  Otherwise, with n files listed,
    the selected index is in [0, n-1] after any sequence of events, Up and
    Down move it by one modulo n (from 0 up to n-1, from n-1 down to 0), the
    menu never raises, a path it returns is [os.path.join] of the folder
    and one of the listed names that end in .obj, and it does return one:
    after batches with neither QUIT nor Return, a batch with Return and no
    QUIT makes it return the join of the folder with the listed file at the
    index reached, which is in [0, n-1]. *)
Theorem menu_selection_in_range (folder : string) (listing : list string) :
  let obj_files := filter is_obj listing in
  let n := Z.of_nat (List.length obj_files) in
  (obj_files = [] ->
     forall batches,
       obj_menu folder listing batches =
       MenuRaise (FileNotFoundError ("No OBJ files found in " ++ folder))) /\
  (obj_files <> [] ->
     index_in_range n initial_menu /\
     (forall evs st,
        menu_events n initial_menu evs = Some st -> index_in_range n st) /\
     (forall st ev st',
        index_in_range n st -> menu_event n st ev = Some st' ->
        index_in_range n st') /\
     (forall st,
        menu_event n st (KEYDOWN K_UP) =
          Some (Menu ((selected_index st - 1) mod n) (menu_active st)) /\
        menu_event n st (KEYDOWN K_DOWN) =
          Some (Menu ((selected_index st + 1) mod n) (menu_active st))) /\
     ((0 - 1) mod n = n - 1)%Z /\ ((n - 1 + 1) mod n = 0)%Z /\
     (forall batches e, obj_menu folder listing batches <> MenuRaise e) /\
     (forall batches p,
        obj_menu folder listing batches = MenuReturn p ->
        exists f, In f listing /\ is_obj f = true /\
                  p = os_path_join folder f) /\
     (forall (pre rest : list (list event)) (b : list event),
        forallb (fun b => negb (existsb is_menu_quit b) &&
                          negb (existsb is_return b)) pre = true ->
        existsb is_menu_quit b = false ->
        existsb is_return b = true ->
        let i := (menu_shift (List.concat pre ++ b) mod n)%Z in
        (0 <= i < n)%Z /\
        exists f, nth_error obj_files (Z.to_nat i) = Some f /\
                  In f listing /\ is_obj f = true /\
                  obj_menu folder listing (pre ++ b :: rest) =
                  MenuReturn (os_path_join folder f))).
Proof.
  intros obj_files n. split.
  - intros Hnil batches. unfold obj_menu. fold obj_files. rewrite Hnil.
    reflexivity.
  - intros Hne.
    assert (Hn : (0 < n)%Z).
    { unfold n. destruct obj_files; [contradiction|]. simpl List.length. lia. }
    assert (Hinit : index_in_range n initial_menu).
    { unfold index_in_range, initial_menu. cbn [selected_index]. lia. }
    assert (Hrun : forall batches,
              match menu_loop n initial_menu batches with
              | Done st => exists f, py_index obj_files (selected_index st) = Ok f
                                     /\ In f obj_files
              | _ => True
              end).
    { intros batches. destruct (menu_loop n initial_menu batches) eqn:E; trivial.
      apply py_index_in_range.
      apply (menu_loop_in_range n batches Hn initial_menu st Hinit E). }
    split; [exact Hinit|].
    split; [intros evs st; apply (menu_events_in_range n evs Hn _ _ Hinit)|].
    split; [intros st ev st'; apply (menu_event_in_range n st st' ev Hn)|].
    split; [intros st; split; reflexivity|].
    split; [apply wrap_up, Hn|].
    split; [apply wrap_down, Hn|].
    split; [|split].
    + intros batches e. specialize (Hrun batches). unfold obj_menu.
      fold obj_files. fold n. destruct obj_files as [|f0 fs]; [contradiction|].
      destruct (menu_loop n initial_menu batches); try discriminate.
      destruct Hrun as [f [Hf _]]. rewrite Hf. discriminate.
    + intros batches p. specialize (Hrun batches). unfold obj_menu.
      fold obj_files. fold n. destruct obj_files as [|f0 fs] eqn:Ef;
        [contradiction|].
      destruct (menu_loop n initial_menu batches); try discriminate.
      destruct Hrun as [f [Hf Hin]]. rewrite Hf. intros H. inversion H.
      exists f. rewrite <- Ef in Hin. unfold obj_files in Hin.
      apply filter_In in Hin. destruct Hin as [Hin Hobj].
      repeat split; assumption.
    + intros pre rest b Hpre Hbq Hbr i.
      assert (Hi : (0 <= i < n)%Z) by (apply Z.mod_pos_bound, Hn).
      split; [exact Hi|].
      exists (nth (Z.to_nat i) obj_files ""%string).
      assert (Hlt : (Z.to_nat i < List.length obj_files)%nat).
      { unfold n in Hi. lia. }
      assert (Hin : In (nth (Z.to_nat i) obj_files ""%string) obj_files)
        by (apply nth_In, Hlt).
      split; [apply nth_error_nth', Hlt|].
      unfold obj_files in Hin. apply filter_In in Hin.
      destruct Hin as [Hin Hobj].
      split; [exact Hin|]. split; [exact Hobj|].
      exact (obj_menu_confirmed folder listing pre rest b Hne Hpre Hbq Hbr).
Qed.

(** A folder with two .obj files: Up from the first wraps to the last, and
    the menu returns the join of the folder with that listed name. *)
Lemma menu_selection_in_range_witness :
  exists f : string,
    nth_error ["a.obj"; "B.OBJ"]%string 1 = Some f /\
    In f ["a.obj"; "readme.txt"; "B.OBJ"]%string /\ is_obj f = true /\
    obj_menu "OBJ_files" ["a.obj"; "readme.txt"; "B.OBJ"]%string
             ([[KEYDOWN K_UP]] ++ [OtherEvent; KEYDOWN K_RETURN] :: []) =
    MenuReturn (os_path_join "OBJ_files" f).
Proof.
  pose proof (proj2 (menu_selection_in_range "OBJ_files"
                       ["a.obj"; "readme.txt"; "B.OBJ"]%string)) as H.
  cbv zeta in H.
  assert (Hne : filter is_obj ["a.obj"; "readme.txt"; "B.OBJ"]%string <> []).
  { vm_compute. discriminate. }
  specialize (H Hne).
  destruct H as [_ [_ [_ [_ [_ [_ [_ [_ H]]]]]]]].
  exact (proj2 (H [[KEYDOWN K_UP]] [] [OtherEvent; KEYDOWN K_RETURN]
                  eq_refl eq_refl eq_refl)).
Defined.

Lemma menu_confirm_first (folder f0 : string) (listing : list string)
    (fs : list string) :
  filter is_obj listing = f0 :: fs ->
  obj_menu folder listing [[KEYDOWN K_RETURN]] =
  MenuReturn (os_path_join folder f0).
Proof. intros H. unfold obj_menu. rewrite H. reflexivity. Qed.

Example menu_up_wraps_to_last :
  obj_menu "OBJ_files" ["a.obj"; "readme.txt"; "B.OBJ"]%string
           [[KEYDOWN K_UP]; [OtherEvent; KEYDOWN K_RETURN]] =
  MenuReturn "OBJ_files/B.OBJ".
Proof. reflexivity. Qed.

(** ** Loading the mesh *)

Section LoaderFacts.

Variable path_exists : string -> bool.
Variable Wavefront : string -> result scene.
Variable np_array_f4 : list (list R) -> result (list (list R)).
Variable np_array_i4 : list Z -> result (list Z).

Lemma load_obj_missing (p : string) :
  path_exists p = false ->
  load_obj path_exists Wavefront np_array_f4 np_array_i4 p =
  Raise (FileNotFoundError ("OBJ file not found: " ++ p)).
Proof. intros H. unfold load_obj. rewrite H. reflexivity. Qed.

Lemma load_obj_present (p : string) :
  path_exists p = true ->
  load_obj path_exists Wavefront np_array_f4 np_array_i4 p =
  match Wavefront p with
  | Raise e => Raise e
  | Ok sc =>
      match np_array_f4 (scene_vertices sc) with
      | Raise e => Raise e
      | Ok vertices =>
          match np_array_i4 (flat_faces sc) with
          | Raise e => Raise e
          | Ok faces => Ok (vertices, faces)
          end
      end
  end.
Proof. intros H. unfold load_obj. rewrite H. reflexivity. Qed.

Lemma main_load_failure (listing : list string)
    (menu_input : list (list event))
    (frames : list (list event * (key -> bool))) (p : string) (e : exn) :
  obj_menu "OBJ_files" listing menu_input = MenuReturn p ->
  load_obj path_exists Wavefront np_array_f4 np_array_i4 p = Raise e ->
  main path_exists Wavefront np_array_f4 np_array_i4 listing menu_input frames =
  ([Print ("Error loading OBJ: " ++ exn_str e)], Returned).
Proof. intros Hm Hl. unfold main. rewrite Hm, Hl. reflexivity. Qed.

(** C8, amended: [load_obj] raises FileNotFoundError whenever the path does
    not exist; on a path that exists an exception of the parser is raised
    unchanged, a FileNotFoundError of the parser's own included; an
    exception of [load_obj] is always one of these or an exception of one
    of the two array conversions; and whenever [load_obj] raises on the path
    the menu returned, [main] prints the error and returns: it does not end
    in an exception, and no GPU setup or rendering is among its effects. *)
Theorem load_failure_is_reported (p : string) :
  (path_exists p = false ->
     load_obj path_exists Wavefront np_array_f4 np_array_i4 p =
     Raise (FileNotFoundError ("OBJ file not found: " ++ p))) /\
  (forall e, path_exists p = true -> Wavefront p = Raise e ->
             load_obj path_exists Wavefront np_array_f4 np_array_i4 p =
             Raise e) /\
  (forall e,
     load_obj path_exists Wavefront np_array_f4 np_array_i4 p = Raise e ->
     (path_exists p = false /\
      e = FileNotFoundError ("OBJ file not found: " ++ p)) \/
     (path_exists p = true /\
      (Wavefront p = Raise e \/
       exists sc, Wavefront p = Ok sc /\
         (np_array_f4 (scene_vertices sc) = Raise e \/
          exists vertices,
            np_array_f4 (scene_vertices sc) = Ok vertices /\
            np_array_i4 (flat_faces sc) = Raise e)))) /\
  (forall listing menu_input frames e,
     obj_menu "OBJ_files" listing menu_input = MenuReturn p ->
     load_obj path_exists Wavefront np_array_f4 np_array_i4 p = Raise e ->
     let run := main path_exists Wavefront np_array_f4 np_array_i4
                     listing menu_input frames in
     run = ([Print ("Error loading OBJ: " ++ exn_str e)], Returned) /\
     existsb is_gl (fst run) = false).
Proof.
  split; [apply load_obj_missing|]. split; [|split].
  - intros e Hp Hw. rewrite load_obj_present by exact Hp. rewrite Hw.
    reflexivity.
  - intros e He. destruct (path_exists p) eqn:Hp.
    + right. split; [reflexivity|].
      rewrite load_obj_present in He by exact Hp.
      destruct (Wavefront p) as [sc|e'] eqn:Hw.
      * right. exists sc. split; [reflexivity|].
        destruct (np_array_f4 (scene_vertices sc)) as [vs|e1] eqn:Hv.
        -- right. exists vs. split; [reflexivity|].
           destruct (np_array_i4 (flat_faces sc)) as [fs|e2] eqn:Hf.
           ++ discriminate.
           ++ inversion He. reflexivity.
        -- left. inversion He. reflexivity.
      * left. inversion He. reflexivity.
    + left. split; [reflexivity|].
      rewrite load_obj_missing in He by exact Hp. inversion He. reflexivity.
  - intros listing menu_input frames e Hm Hl. cbv zeta.
    rewrite (main_load_failure listing menu_input frames p e Hm Hl).
    split; reflexivity.
Qed.

(** When loading succeeds the GPU setup is the first effect of [main]. *)
Lemma main_load_success (listing : list string)
    (menu_input : list (list event))
    (frames : list (list event * (key -> bool))) (p : string)
    (vertices : list (list R)) (faces : list Z) :
  obj_menu "OBJ_files" listing menu_input = MenuReturn p ->
  load_obj path_exists Wavefront np_array_f4 np_array_i4 p =
    Ok (vertices, faces) ->
  exists tr,
    fst (main path_exists Wavefront np_array_f4 np_array_i4
              listing menu_input frames) =
    GLSetup vertices faces :: tr.
Proof.
  intros Hm Hl. unfold main. rewrite Hm, Hl.
  destruct (main_loop (Loop true initial_camera) frames) as [tr out].
  exists tr. reflexivity.
Qed.

End LoaderFacts.

(** C8, as the claim states it, fails: the file exists, the parser raises a
    FileNotFoundError of its own (pywavefront does for an .obj whose mtllib
    names a missing file, whatever the message), and [load_obj], which has
    no handler around the parser, fails with that not-found error on a path
    that exists. *)
Lemma not_found_on_existing_path :
  String.eqb "OBJ_files/room.obj" "OBJ_files/room.obj" = true /\
  load_obj (String.eqb "OBJ_files/room.obj")
           (fun _ => Raise (FileNotFoundError "room.mtl"))
           (fun rows => Ok rows) (fun indices => Ok indices)
           "OBJ_files/room.obj" =
  Raise (FileNotFoundError "room.mtl") /\
  is_not_found (FileNotFoundError "room.mtl") = true.
Proof. repeat split. Qed.

(** A folder that lists room.obj, which exists on disk, and a parser that
    rejects it as malformed: [main] prints the parser's error and returns. *)
Lemma load_failure_is_reported_witness :
  main (String.eqb "OBJ_files/room.obj")
       (fun _ => Raise (ExternalError "PywavefrontException" "malformed"))
       (fun rows => Ok rows) (fun indices => Ok indices)
       ["room.obj"%string] [[KEYDOWN K_RETURN]] [] =
  ([Print "Error loading OBJ: malformed"], Returned).
Proof.
  refine (proj1 (proj2 (proj2 (proj2
    (load_failure_is_reported (String.eqb "OBJ_files/room.obj")
       (fun _ => Raise (ExternalError "PywavefrontException" "malformed"))
       (fun rows => Ok rows) (fun indices => Ok indices)
       "OBJ_files/room.obj"))) ["room.obj"%string] [[KEYDOWN K_RETURN]] []
       (ExternalError "PywavefrontException" "malformed") _ _)).
  - reflexivity.
  - reflexivity.
Defined.

(** ** Instances *)

(** The vector (3, 0, 4), of length 5, is scaled to length 1. *)
Lemma normalize_unit_or_unchanged_witness :
  V3 3 0 4 <> vzero /\ norm (normalize (V3 3 0 4)) = 1.
Proof.
  assert (Hv : V3 3 0 4 <> vzero).
  { unfold vzero. intros E. inversion E. lra. }
  split; [exact Hv|].
  exact (proj1 (proj2 (normalize_unit_or_unchanged (V3 3 0 4))) Hv).
Defined.

(** The arguments of the source's own call satisfy the constraints. *)
Lemma perspective_matrix_entries_witness :
  0 < 1 / tan (radians 60 / 2) /\ 0.1 - 100 <> 0.
Proof.
  assert (Hf : 0 < radians 60 < PI).
  { unfold radians. pose proof PI_RGT_0. lra. }
  assert (Ha : 0 < 16 / 9) by lra.
  assert (Hn : 0 < 0.1 < 100) by lra.
  pose proof (proj1 perspective_matrix_entries (radians 60) (16 / 9) 0.1 100
                Hf Ha Hn) as H.
  cbv zeta in H. destruct H as [H1 [H2 _]]. split; [exact H1 | exact H2].
Defined.

(** ** Where float32 and float64 decide *)

(** C1, as the claim states it, fails in float64: the nonzero vector
    (1e-200, 0, 0) has the computed norm 0 and is returned unchanged, not
    scaled to length 1, and the nonzero vector (1e200, 0, 0) has the computed
    norm infinity and comes back as the zero vector. *)
Lemma normalize_float_underflow :
  Fp.nonzero Fp.d1em200 = true /\
  Fp.norm (Fp.FV3 Fp.d1em200 Fp.zero Fp.zero) = Fp.zero /\
  Fp.normalize (Fp.FV3 Fp.d1em200 Fp.zero Fp.zero) =
    Fp.FV3 Fp.d1em200 Fp.zero Fp.zero /\
  SFeqb (Fp.norm (Fp.normalize (Fp.FV3 Fp.d1em200 Fp.zero Fp.zero))) Fp.one
    = false /\
  Fp.nonzero Fp.d1e200 = true /\
  Fp.norm (Fp.FV3 Fp.d1e200 Fp.zero Fp.zero) = S754_infinity false /\
  Fp.normalize (Fp.FV3 Fp.d1e200 Fp.zero Fp.zero) =
    Fp.FV3 Fp.zero Fp.zero Fp.zero.
Proof. vm_compute. repeat split. Qed.

(** C6, as the claim states it, fails in the float32 position array: at
    z = 2097152 = 2^21, with yaw = 0 and only W held, the step of 0.1 is
    below half the spacing 0.25 of float32 there and the position comes back
    unchanged: z does not increase. *)
Lemma forward_step_absorbed_in_float32 :
  Fp.step_forward
    (Fp.FV3 Fp.zero (Fp.to_f32 Fp.one) (Fp.to_f32 (Fp.of_Z 2097152)))
    Fp.trig_yaw_0 =
  Fp.FV3 Fp.zero (Fp.to_f32 Fp.one) (Fp.to_f32 (Fp.of_Z 2097152)) /\
  Fp.lt (Fp.to_f32 (Fp.of_Z 2097152))
        (Fp.fz (Fp.step_forward
                  (Fp.FV3 Fp.zero (Fp.to_f32 Fp.one)
                          (Fp.to_f32 (Fp.of_Z 2097152)))
                  Fp.trig_yaw_0)) = false.
Proof. vm_compute. split; reflexivity. Qed.

(** C7, as the claim states it, fails in float32: with the camera at
    (-1000000, 1, 2000000), yaw = 2.5 and pitch = 0, the float32 view matrix
    sends the eye to view-space z = -0.25 instead of 0, and the clip
    coordinates of the eye, through [proj @ view] as through [proj] after
    [view], have -w < z: the eye is in front of the near plane. *)
Lemma eye_in_front_of_near_plane_in_float32 :
  Fp.f2 (Fp.mat_vec
           (Fp.frame_view
              (Fp.FV3 (Fp.to_f32 (Fp.of_Z (-1000000))) (Fp.to_f32 Fp.one)
                      (Fp.to_f32 (Fp.of_Z 2000000)))
              Fp.trig_yaw_2_5)
           (Fp.homogeneous
              (Fp.FV3 (Fp.to_f32 (Fp.of_Z (-1000000))) (Fp.to_f32 Fp.one)
                      (Fp.to_f32 (Fp.of_Z 2000000))))) =
    S754_finite true 8388608 (-25) /\
  (let p := Fp.mat_vec
              (Fp.frame_mvp Fp.tan_30_degrees
                 (Fp.FV3 (Fp.to_f32 (Fp.of_Z (-1000000))) (Fp.to_f32 Fp.one)
                         (Fp.to_f32 (Fp.of_Z 2000000)))
                 Fp.trig_yaw_2_5)
              (Fp.homogeneous
                 (Fp.FV3 (Fp.to_f32 (Fp.of_Z (-1000000))) (Fp.to_f32 Fp.one)
                         (Fp.to_f32 (Fp.of_Z 2000000)))) in
   Fp.lt (SFopp (Fp.f3 p)) (Fp.f2 p) = true /\
   SFleb (Fp.f2 p) (SFopp (Fp.f3 p)) = false) /\
  (let q := Fp.mat_vec
              (Fp.perspective Fp.tan_30_degrees Fp.aspect Fp.NEAR Fp.FAR)
              (Fp.mat_vec
                 (Fp.frame_view
                    (Fp.FV3 (Fp.to_f32 (Fp.of_Z (-1000000))) (Fp.to_f32 Fp.one)
                            (Fp.to_f32 (Fp.of_Z 2000000)))
                    Fp.trig_yaw_2_5)
                 (Fp.homogeneous
                    (Fp.FV3 (Fp.to_f32 (Fp.of_Z (-1000000)))
                            (Fp.to_f32 Fp.one)
                            (Fp.to_f32 (Fp.of_Z 2000000))))) in
   Fp.lt (SFopp (Fp.f3 q)) (Fp.f2 q) = true).
Proof. vm_compute. repeat split. Qed.

(** The lower bound of the pitch clamp is reached as the upper one is. *)
Lemma pitch_reaches_lower_bound :
  pitch (apply_look initial_camera 0 (-1000)) = - PI / 2.
Proof.
  pose proof half_pi_bounds as Hb.
  unfold apply_look, initial_camera, LOOK_SPEED, clip. cbn [pitch].
  rewrite Rmax_right by lra. apply Rmin_left. lra.
Qed.

(** * Further properties of the code *)

(** ** [normalize] *)

Lemma vscale_zero (k : R) : vscale vzero k = vzero.
Proof. unfold vscale, vzero. cbn [vx vy vz]. f_equal; ring. Qed.

Lemma dot_vscale (v : vec3) (k : R) :
  dot (vscale v k) (vscale v k) = (k * k) * dot v v.
Proof. unfold dot, vscale. cbn [vx vy vz]. ring. Qed.

Lemma norm_vscale (v : vec3) (k : R) : 0 <= k -> norm (vscale v k) = k * norm v.
Proof.
  intros Hk. unfold norm. rewrite dot_vscale.
  rewrite sqrt_mult; [|nra|apply dot_self_nonneg].
  rewrite sqrt_square by exact Hk. reflexivity.
Qed.

(** X1: normalizing twice is the same as normalizing once, for every
    vector, the zero vector included. *)
Theorem normalize_idempotent (v : vec3) :
  normalize (normalize v) = normalize v.
Proof.
  destruct (Req_dec_T (norm v) 0) as [E|N].
  - assert (H : normalize v = v) by (apply normalize_with_zero, E).
    rewrite H. exact H.
  - apply normalize_of_unit. rewrite <- norm_sqr.
    assert (H : norm (normalize v) = 1).
    { apply norm_normalize. intros Ez. apply N, norm_zero_iff, Ez. }
    rewrite H. ring.
Qed.

(** X2: in exact real arithmetic [normalize] depends on the direction
    only: scaling the input by a positive factor does not change the
    result. *)
Theorem normalize_scale_invariant (v : vec3) (k : R) :
  0 < k -> normalize (vscale v k) = normalize v.
Proof.
  intros Hk. destruct (Req_dec_T (norm v) 0) as [E|N].
  - apply norm_zero_iff in E. subst v. rewrite vscale_zero. reflexivity.
  - assert (Hn : norm (vscale v k) = k * norm v) by (apply norm_vscale; lra).
    assert (Hkn : k * norm v <> 0).
    { intros Ez. apply Rmult_integral in Ez. destruct Ez; [lra|contradiction]. }
    unfold normalize.
    rewrite (normalize_with_nonzero vdiv (vscale v k)) by (rewrite Hn; exact Hkn).
    rewrite (normalize_with_nonzero vdiv v) by exact N.
    rewrite Hn. unfold vdiv, vscale. cbn [vx vy vz].
    f_equal; field; split; solve [exact N | lra].
Qed.

Lemma normalize_scale_invariant_witness :
  normalize (vscale (V3 3 0 4) 2) = normalize (V3 3 0 4).
Proof. apply (normalize_scale_invariant (V3 3 0 4) 2). lra. Defined.

(** ** Degenerate and regular inputs of [look_at] *)

Lemma vsub_self (a : vec3) : vsub a a = vzero.
Proof. unfold vsub, vzero. f_equal; ring. Qed.

Lemma cross_zero_left (a : vec3) : cross vzero a = vzero.
Proof. unfold cross, vzero. cbn [vx vy vz]. f_equal; ring. Qed.

Lemma normalize_zero : normalize vzero = vzero.
Proof. apply normalize_with_zero, norm_zero_iff. reflexivity. Qed.

Lemma dot_zero_left (a : vec3) : dot vzero a = 0.
Proof. unfold dot, vzero. cbn [vx vy vz]. ring. Qed.

(** X3: with the target at the eye no error is raised: the rotation part and
    the translation of the view matrix are all zero, only the bottom row
    [0, 0, 0, 1] of the identity is left. *)
Theorem look_at_eye_equals_target (eye up : vec3) :
  look_at eye eye up =
  M4 (V4 0 0 0 0) (V4 0 0 0 0) (V4 0 0 0 0) (V4 0 0 0 1).
Proof.
  rewrite look_at_unfold. cbv zeta.
  rewrite vsub_self, normalize_zero, cross_zero_left, normalize_zero,
    cross_zero_left, dot_zero_left.
  unfold vzero. cbn [vx vy vz].
  f_equal; apply f_equal4; ring.
Qed.

(** X4: when the up vector is parallel to the forward direction the side
    and up rows of the view matrix are zero; no error is raised. *)
Theorem look_at_up_parallel (eye target up : vec3) :
  cross (normalize (vsub target eye)) up = vzero ->
  row0 (look_at eye target up) = V4 0 0 0 0 /\
  row1 (look_at eye target up) = V4 0 0 0 0.
Proof.
  intros H. rewrite look_at_unfold. cbv zeta. cbn [row0 row1].
  rewrite H, normalize_zero, cross_zero_left, dot_zero_left.
  unfold vzero. cbn [vx vy vz]. split; apply f_equal4; ring.
Qed.

Lemma look_at_up_parallel_witness :
  row0 (look_at (V3 0 0 0) (V3 0 1 0) (V3 0 1 0)) = V4 0 0 0 0.
Proof.
  refine (proj1 (look_at_up_parallel (V3 0 0 0) (V3 0 1 0) (V3 0 1 0) _)).
  rewrite normalize_of_unit.
  - unfold cross, vsub, vzero. cbn [vx vy vz]. f_equal; ring.
  - unfold dot, vsub. cbn [vx vy vz]. ring.
Defined.

Lemma dot_right_vdiv (a d : vec3) (n : R) : dot a (vdiv d n) = dot a d / n.
Proof. unfold dot, vdiv. cbn [vx vy vz]. unfold Rdiv. ring. Qed.

Lemma dot_cross_right (a b : vec3) : dot (cross a b) b = 0.
Proof. unfold dot, cross. cbn [vx vy vz]. ring. Qed.

Lemma dot_vsub_right (a p q : vec3) : dot a (vsub p q) = dot a p - dot a q.
Proof. unfold dot, vsub. cbn [vx vy vz]. ring. Qed.

(** X5: in exact real arithmetic, for eye <> target and up not parallel to
    the forward direction, the view matrix sends the target to the point of
    the negative z-axis at the distance of the target from the eye. *)
Theorem look_at_target_on_negative_z (eye target up : vec3) :
  eye <> target ->
  cross (normalize (vsub target eye)) up <> vzero ->
  mat_vec (look_at eye target up) (homogeneous target) =
  V4 0 0 (- norm (vsub target eye)) 1.
Proof.
  intros Hne Hcr.
  assert (Hn : norm (vsub target eye) <> 0).
  { intros E. apply norm_zero_iff in E. apply Hne. apply vsub_zero_eq, E. }
  assert (Hf : normalize (vsub target eye) =
               vdiv (vsub target eye) (norm (vsub target eye))).
  { unfold normalize. apply normalize_with_nonzero, Hn. }
  assert (Hs : normalize (cross (normalize (vsub target eye)) up) =
               vdiv (cross (normalize (vsub target eye)) up)
                    (norm (cross (normalize (vsub target eye)) up))).
  { unfold normalize at 1. apply normalize_with_nonzero.
    intros E. apply Hcr, norm_zero_iff, E. }
  pose proof (norm_sqr (vsub target eye)) as Hsq.
  rewrite look_at_unfold. cbv zeta.
  set (f := normalize (vsub target eye)) in *.
  set (s := normalize (cross f up)) in *.
  set (d := vsub target eye) in *.
  set (n := norm d) in *.
  assert (Hsd : dot s d = 0).
  { assert (Hsf : dot s f = 0).
    { rewrite Hs, dot_vdiv_left, dot_cross_left. unfold Rdiv. ring. }
    rewrite Hf, dot_right_vdiv in Hsf.
    apply (Rmult_eq_compat_r n) in Hsf. rewrite Rmult_0_l in Hsf.
    rewrite <- Hsf. field. exact Hn. }
  assert (Hud : dot (cross s f) d = 0).
  { assert (Huf : dot (cross s f) f = 0) by apply dot_cross_right.
    rewrite Hf, dot_right_vdiv in Huf. rewrite <- Hf in Huf.
    apply (Rmult_eq_compat_r n) in Huf. rewrite Rmult_0_l in Huf.
    rewrite <- Huf. field. exact Hn. }
  assert (Hfd : dot f d = n).
  { rewrite Hf, dot_vdiv_left, <- Hsq. field. exact Hn. }
  unfold d in Hsd, Hud, Hfd. rewrite dot_vsub_right in Hsd, Hud, Hfd.
  unfold mat_vec, homogeneous, dot4. cbn [row0 row1 row2 row3 c0 c1 c2 c3].
  unfold dot in *. apply f_equal4; lra.
Qed.

Lemma look_at_target_on_negative_z_witness :
  mat_vec (look_at (V3 0 0 0) (V3 0 0 (-1)) (V3 0 1 0))
          (homogeneous (V3 0 0 (-1))) =
  V4 0 0 (- norm (vsub (V3 0 0 (-1)) (V3 0 0 0))) 1.
Proof.
  apply (look_at_target_on_negative_z (V3 0 0 0) (V3 0 0 (-1)) (V3 0 1 0)).
  - intros E. inversion E. lra.
  - rewrite normalize_of_unit.
    + unfold cross, vsub, vzero. cbn [vx vy vz]. intros E. inversion E. lra.
    + unfold dot, vsub. cbn [vx vy vz]. ring.
Defined.

(** ** The view of a frame *)

Lemma vsub_vadd_cancel (p d : vec3) : vsub (vadd p d) p = d.
Proof. destruct p, d. unfold vsub, vadd. cbn [vx vy vz]. f_equal; ring. Qed.






(** ** The projection *)

(** X8: for 0 < near < far the projection sends the points of the near
    plane, z = -near in view space, to clip coordinates with z = -w and
    w = near, and the points of the far plane, z = -far, to z = w = far. *)
Theorem perspective_near_far_planes (fovy aspect near far x y : R) :
  0 < near < far ->
  let pn := mat_vec (perspective fovy aspect near far) (V4 x y (- near) 1) in
  let pf := mat_vec (perspective fovy aspect near far) (V4 x y (- far) 1) in
  c3 pn = near /\ c2 pn = - c3 pn /\ c3 pf = far /\ c2 pf = c3 pf.
Proof.
  intros Hnf pn pf. unfold pn, pf, mat_vec, perspective, dot4.
  cbn [row0 row1 row2 row3 c0 c1 c2 c3].
  assert (Hd : near - far <> 0) by lra.
  repeat split; field; exact Hd.
Qed.

Lemma perspective_near_far_planes_witness :
  c3 (mat_vec (perspective (radians 60) (16 / 9) 1 100) (V4 0 0 (- 1) 1)) = 1.
Proof.
  refine (proj1 (perspective_near_far_planes (radians 60) (16 / 9) 1 100 0 0 _)).
  lra.
Defined.


(** ** Events of the main loop *)

Lemma handle_event_running (s : loop_state) (ev : event) :
  running (handle_event s ev) = (running s && negb (is_quit_event ev))%bool.
Proof.
  destruct s as [r c].
  destruct ev as [|k|[mx my]|]; try destruct k; cbn [handle_event running cam is_quit_event negb];
    destruct r; reflexivity.
Qed.

Lemma handle_event_cam (s : loop_state) (ev : event) :
  cam (handle_event s ev) =
  match ev with
  | MOUSEMOTION (mx, my) => apply_look (cam s) mx my
  | _ => cam s
  end.
Proof.
  destruct s as [r c].
  destruct ev as [|k|[mx my]|]; try destruct k; reflexivity.
Qed.

Lemma events_running (evs : list event) (s : loop_state) :
  running (fold_left handle_event evs s) =
  (running s && negb (existsb is_quit_event evs))%bool.
Proof.
  revert s. induction evs as [|ev rest IH]; intros s; cbn [fold_left existsb].
  - destruct (running s); reflexivity.
  - rewrite IH, handle_event_running.
    destruct (running s), (is_quit_event ev), (existsb is_quit_event rest);
      reflexivity.
Qed.

(** X10: after the events of a frame the loop is still running exactly when
    it was running before and none of the events is QUIT or a press of
    Escape; no event sets the flag again. *)
Theorem running_after_events (evs : list event) (s : loop_state) :
  running (fold_left handle_event evs s) = true <->
  running s = true /\
  Forall (fun ev => ev <> QUIT /\ ev <> KEYDOWN K_ESCAPE) evs.
Proof.
  rewrite events_running, andb_true_iff, negb_true_iff.
  split; intros [Hr Hq]; (split; [exact Hr|]).
  - induction evs as [|ev rest IH]; constructor.
    + cbn [existsb] in Hq. apply orb_false_iff in Hq. destruct Hq as [He _].
      split; intros E; subst ev; discriminate.
    + apply IH. cbn [existsb] in Hq. apply orb_false_iff in Hq. apply Hq.
  - induction Hq as [|ev rest [Hq1 Hq2] _ IH]; [reflexivity|].
    cbn [existsb]. rewrite IH.
    destruct ev as [|k|rel|]; try destruct k; try reflexivity;
      exfalso; [apply Hq1 | apply Hq2]; reflexivity.
Qed.

Lemma running_after_events_witness :
  running (fold_left handle_event [MOUSEMOTION (4, 2)%Z; KEYDOWN K_w]
                     (Loop true initial_camera)) = true.
Proof.
  apply (proj2 (running_after_events [MOUSEMOTION (4, 2)%Z; KEYDOWN K_w]
                  (Loop true initial_camera))).
  split; [reflexivity|].
  repeat constructor; discriminate.
Defined.

(** X11: the events of a frame never move the camera, and they turn it by
    the sum of the horizontal mouse deltas: the yaw after them is the yaw
    before minus that sum times LOOK_SPEED, without any clamp or wrap. *)
Theorem camera_after_events (evs : list event) (s : loop_state) :
  cam_pos (cam (fold_left handle_event evs s)) = cam_pos (cam s) /\
  yaw (cam (fold_left handle_event evs s)) =
    yaw (cam s) - IZR (mouse_dx evs) * LOOK_SPEED.
Proof.
  revert s. induction evs as [|ev rest IH]; intros s; cbn [fold_left mouse_dx].
  - split; [reflexivity|]. lra.
  - destruct (IH (handle_event s ev)) as [Hp Hy]. rewrite Hp, Hy.
    rewrite handle_event_cam.
    destruct ev as [|k|[mx my]|]; try (split; [reflexivity|lra]).
    unfold apply_look. cbn [cam_pos yaw]. split; [reflexivity|].
    rewrite plus_IZR. lra.
Qed.

(** ** Movement *)


Lemma right_of_closed (y : R) : right_of y = V3 (- cos y) 0 (sin y).
Proof.
  unfold right_of, right_with. fold (normalize (cross (forward_of y) world_up)).
  rewrite normalize_of_unit by apply dot_cross_forward_up.
  apply cross_forward_up.
Qed.

Lemma vsub_vadd2_cancel (p a b : vec3) : vsub (vadd (vadd p a) b) p = vadd a b.
Proof.
  destruct p, a, b. unfold vsub, vadd. cbn [vx vy vz]. f_equal; ring.
Qed.

Lemma move_speed_nonneg : 0 <= MOVE_SPEED.
Proof. unfold MOVE_SPEED. lra. Qed.

(** X13: with only W held the camera moves by exactly MOVE_SPEED in a
    frame; with W and D held together it moves by MOVE_SPEED times the
    square root of 2: the two steps are added, not renormalized. *)
Theorem move_step_length (c : camera) :
  norm (vsub (cam_pos (apply_move only_forward c)) (cam_pos c)) = MOVE_SPEED /\
  norm (vsub (cam_pos (apply_move forward_and_right c)) (cam_pos c)) =
    MOVE_SPEED * sqrt 2.
Proof.
  pose proof move_speed_nonneg as Hm. split.
  - rewrite apply_move_only_forward. cbn [cam_pos].
    rewrite vsub_vadd_cancel, norm_vscale by exact Hm.
    rewrite (norm_of_unit_dot _ (dot_forward (yaw c))). ring.
  - assert (Hpos : cam_pos (apply_move forward_and_right c) =
                   vadd (vadd (cam_pos c) (vscale (forward_of (yaw c)) MOVE_SPEED))
                        (vscale (right_of (yaw c)) MOVE_SPEED)) by reflexivity.
    rewrite Hpos, vsub_vadd2_cancel, right_of_closed.
    unfold norm.
    assert (Hd : dot (vadd (vscale (forward_of (yaw c)) MOVE_SPEED)
                           (vscale (V3 (- cos (yaw c)) 0 (sin (yaw c))) MOVE_SPEED))
                     (vadd (vscale (forward_of (yaw c)) MOVE_SPEED)
                           (vscale (V3 (- cos (yaw c)) 0 (sin (yaw c))) MOVE_SPEED))
                 = (MOVE_SPEED * MOVE_SPEED) * 2).
    { generalize MOVE_SPEED. intros m.
      unfold dot, vadd, vscale, forward_of. cbn [vx vy vz].
      pose proof (sin2_cos2 (yaw c)) as Hy. unfold Rsqr in Hy.
      replace ((sin (yaw c) * m + - cos (yaw c) * m) *
               (sin (yaw c) * m + - cos (yaw c) * m) +
               (0 * m + 0 * m) * (0 * m + 0 * m) +
               (cos (yaw c) * m + sin (yaw c) * m) *
               (cos (yaw c) * m + sin (yaw c) * m))
        with (2 * (m * m) *
              (sin (yaw c) * sin (yaw c) + cos (yaw c) * cos (yaw c))) by ring.
      rewrite Hy. ring. }
    rewrite Hd, sqrt_mult by nra. rewrite sqrt_square by exact Hm.
    reflexivity.
Qed.

(** ** The main loop *)


Lemma main_loop_step (c : camera) (evs : list event) (keys : key -> bool)
    (rest : list (list event * (key -> bool))) :
  main_loop (Loop true c) ((evs, keys) :: rest) =
  let s := fold_left handle_event evs (Loop true c) in
  let c' := apply_move keys (cam s) in
  let r := main_loop (Loop (running s) c') rest in
  (GLRender (frame_mvp c') :: fst r, snd r).
Proof.
  cbn [main_loop running]. cbv zeta.
  destruct (main_loop _ rest) as [tr out]. reflexivity.
Qed.


(** X15: as long as no frame brings QUIT or Escape the loop renders once
    per frame, never quits pygame and is still waiting for the next frame
    when the input ends. *)
Theorem main_loop_keeps_running (frames : list (list event * (key -> bool)))
    (c : camera) :
  forallb (fun f => negb (frame_quits f)) frames = true ->
  let r := main_loop (Loop true c) frames in
  snd r = Waiting /\
  List.length (fst r) = List.length frames /\
  forallb is_render (fst r) = true.
Proof.
  intros H. cbv zeta. revert c.
  induction frames as [|[evs keys] rest IH]; intros c.
  - repeat split.
  - cbn [forallb] in H. apply andb_true_iff in H. destruct H as [Hh Ht].
    unfold frame_quits in Hh. cbn [fst] in Hh. apply negb_true_iff in Hh.
    rewrite main_loop_step. cbv zeta.
    rewrite events_running, Hh. cbn [running andb negb].
    set (c' := apply_move keys (cam (fold_left handle_event evs (Loop true c)))).
    destruct (IH Ht c') as [Hs [Hl Ha]].
    cbn [fst snd List.length forallb is_render andb].
    rewrite Hl, Ha. repeat split. exact Hs.
Qed.

Lemma main_loop_keeps_running_witness :
  snd (main_loop (Loop true initial_camera)
         [([MOUSEMOTION (2, 3)%Z], only_forward)]) = Waiting.
Proof.
  refine (proj1 (main_loop_keeps_running
                   [([MOUSEMOTION (2, 3)%Z], only_forward)] initial_camera _)).
  reflexivity.
Defined.



(** ** The mesh that [load_obj] returns *)





(** X17: a folder without any .obj file ends [main] with the menu's
    FileNotFoundError uncaught: the try block covers [load_obj] only, so
    nothing is printed and nothing else happens. *)
Theorem main_without_obj_files (path_exists : string -> bool)
    (Wavefront : string -> result scene)
    (np_array_f4 : list (list R) -> result (list (list R)))
    (np_array_i4 : list Z -> result (list Z))
    (listing : list string)
    (menu_input : list (list event))
    (frames : list (list event * (key -> bool))) :
  filter is_obj listing = [] ->
  main path_exists Wavefront np_array_f4 np_array_i4
       listing menu_input frames =
  ([], Uncaught (FileNotFoundError "No OBJ files found in OBJ_files")).
Proof.
  intros H. unfold main, obj_menu. rewrite H. reflexivity.
Qed.

Lemma main_without_obj_files_witness :
  main (fun _ => true) (fun _ => Ok (Scene [] []))
       (fun rows => Ok rows) (fun indices => Ok indices)
       ["readme.txt"%string; "room.mtl"%string] [[KEYDOWN K_RETURN]] [] =
  ([], Uncaught (FileNotFoundError "No OBJ files found in OBJ_files")).
Proof.
  apply (main_without_obj_files (fun _ => true) (fun _ => Ok (Scene [] []))
           (fun rows => Ok rows) (fun indices => Ok indices)).
  reflexivity.
Defined.

(** ** What the menu returns *)

(** X18: with at least one .obj file, after batches that hold neither QUIT
    nor Return, a batch that holds Return and no QUIT makes the menu return:
    the file chosen is the one at position (Downs - Ups) mod n, counted over
    all the events read, those after Return in its batch included; later
    batches are not read. *)
Theorem menu_returns_selected (folder : string) (listing : list string)
    (pre rest : list (list event)) (b : list event) :
  let obj_files := filter is_obj listing in
  let n := Z.of_nat (List.length obj_files) in
  obj_files <> [] ->
  forallb (fun b => negb (existsb is_menu_quit b) && negb (existsb is_return b))
          pre = true ->
  existsb is_menu_quit b = false ->
  existsb is_return b = true ->
  obj_menu folder listing (pre ++ b :: rest) =
  MenuReturn
    (os_path_join folder
       (nth (Z.to_nat (menu_shift (List.concat pre ++ b) mod n)) obj_files
            ""%string)).
Proof.
  intros obj_files n. exact (obj_menu_confirmed folder listing pre rest b).
Qed.

Lemma menu_returns_selected_witness :
  obj_menu "OBJ_files" ["a.obj"; "b.obj"; "c.obj"]%string
    ([[KEYDOWN K_DOWN]] ++ [KEYDOWN K_RETURN; KEYDOWN K_DOWN] :: []) =
  MenuReturn "OBJ_files/c.obj".
Proof.
  refine (menu_returns_selected "OBJ_files" ["a.obj"; "b.obj"; "c.obj"]%string
            [[KEYDOWN K_DOWN]] [] [KEYDOWN K_RETURN; KEYDOWN K_DOWN] _ _ _ _).
  - vm_compute. discriminate.
  - reflexivity.
  - reflexivity.
  - reflexivity.
Defined.

(** X19: with at least one .obj file, after batches that hold neither QUIT
    nor Return, a batch that holds QUIT ends the program instead of
    returning, also when Return comes before QUIT in that batch. *)
Theorem menu_quit_exits (folder : string) (listing : list string)
    (pre rest : list (list event)) (b : list event) :
  filter is_obj listing <> [] ->
  forallb (fun b => negb (existsb is_menu_quit b) && negb (existsb is_return b))
          pre = true ->
  existsb is_menu_quit b = true ->
  obj_menu folder listing (pre ++ b :: rest) = MenuExit.
Proof.
  intros Hne Hpre Hbq. unfold obj_menu.
  destruct (filter is_obj listing) as [|f0 fs] eqn:Ef; [contradiction|].
  unfold initial_menu.
  rewrite (menu_loop_skip _ pre (b :: rest)); [| cbn [List.length]; lia
                                                | exact Hpre
                                                | cbn [List.length]; lia].
  cbn [menu_loop menu_active]. rewrite (menu_events_quit _ b Hbq).
  reflexivity.
Qed.

Lemma menu_quit_exits_witness :
  obj_menu "OBJ_files" ["a.obj"; "b.obj"]%string
    ([[KEYDOWN K_DOWN]] ++ [KEYDOWN K_RETURN; QUIT] :: []) = MenuExit.
Proof.
  refine (menu_quit_exits "OBJ_files" ["a.obj"; "b.obj"]%string
            [[KEYDOWN K_DOWN]] [] [KEYDOWN K_RETURN; QUIT] _ _ _).
  - vm_compute. discriminate.
  - reflexivity.
  - reflexivity.
Defined.

(** ** File names *)

Lemma str_app_assoc (a b c : string) :
  ((a ++ b) ++ c)%string = (a ++ (b ++ c))%string.
Proof.
  induction a as [|ch a IH]; cbn [append]; [reflexivity|].
  rewrite IH. reflexivity.
Qed.

Lemma str_length_app (a b : string) :
  String.length (a ++ b) = (String.length a + String.length b)%nat.
Proof.
  induction a as [|ch a IH]; cbn [append String.length plus]; [reflexivity|].
  rewrite IH. reflexivity.
Qed.

Lemma substring_all (s : string) : substring 0 (String.length s) s = s.
Proof.
  induction s as [|ch s IH]; cbn [String.length substring]; [reflexivity|].
  rewrite IH. reflexivity.
Qed.

Lemma substring_skip (p s : string) (m : nat) :
  substring (String.length p) m (p ++ s) = substring 0 m s.
Proof.
  induction p as [|ch p IH]; cbn [String.length append substring];
    [reflexivity|exact IH].
Qed.

Lemma substring_split (s : string) :
  forall k : nat, (k <= String.length s)%nat ->
  s = (substring 0 k s ++ substring k (String.length s - k) s)%string.
Proof.
  induction s as [|ch s IH]; intros k Hk; cbn [String.length] in *.
  - destruct k; [reflexivity|lia].
  - destruct k as [|k].
    + cbn [substring append Nat.sub]. rewrite substring_all. reflexivity.
    + cbn [substring append Nat.sub]. rewrite <- IH by lia. reflexivity.
Qed.

Lemma endswith_app (p suffix : string) : endswith (p ++ suffix) suffix = true.
Proof.
  unfold endswith. rewrite str_length_app.
  replace (String.length p + String.length suffix - String.length suffix)%nat
    with (String.length p) by lia.
  rewrite substring_skip, substring_all, String.eqb_refl.
  apply andb_true_iff. split; [apply Nat.leb_le; lia|reflexivity].
Qed.

Lemma endswith_inv (s suffix : string) :
  endswith s suffix = true -> exists p, s = (p ++ suffix)%string.
Proof.
  unfold endswith. intros H. apply andb_true_iff in H. destruct H as [Hle He].
  apply Nat.leb_le in Hle. apply String.eqb_eq in He.
  exists (substring 0 (String.length s - String.length suffix) s).
  rewrite <- He at 2.
  rewrite (substring_split s (String.length s - String.length suffix)) at 1
    by lia.
  f_equal. f_equal. lia.
Qed.

Lemma lower_app (a b : string) : lower (a ++ b) = (lower a ++ lower b)%string.
Proof.
  induction a as [|ch a IH]; cbn [append lower]; [reflexivity|].
  rewrite IH. reflexivity.
Qed.

Lemma is_obj_app (a f : string) : is_obj f = true -> is_obj (a ++ f) = true.
Proof.
  unfold is_obj. intros H. apply endswith_inv in H. destruct H as [stem Hs].
  rewrite lower_app, Hs, <- str_app_assoc. apply endswith_app.
Qed.

Lemma os_path_join_is_obj (folder f : string) :
  is_obj f = true -> is_obj (os_path_join folder f) = true.
Proof.
  intros H. unfold os_path_join.
  destruct (startswith f "/"); [exact H|].
  destruct (String.eqb folder "" || endswith folder "/")%bool.
  - apply is_obj_app, H.
  - apply is_obj_app, is_obj_app, H.
Qed.

Lemma obj_menu_return_inv (folder : string) (listing : list string)
    (batches : list (list event)) (p : string) :
  obj_menu folder listing batches = MenuReturn p ->
  exists f, In f (filter is_obj listing) /\ p = os_path_join folder f.
Proof.
  unfold obj_menu. destruct (filter is_obj listing) as [|f0 fs] eqn:Ef;
    [discriminate|].
  set (n := Z.of_nat (List.length (f0 :: fs))).
  assert (Hn : (0 < n)%Z) by (unfold n; cbn [List.length]; lia).
  assert (Hinit : index_in_range n initial_menu).
  { unfold index_in_range, initial_menu. cbn [selected_index]. lia. }
  destruct (menu_loop n initial_menu batches) as [st| |] eqn:E;
    try discriminate.
  pose proof (menu_loop_in_range n batches Hn initial_menu st Hinit E) as Hr.
  destruct (py_index_in_range (f0 :: fs) (selected_index st) Hr)
    as [f [Hf Hin]].
  rewrite Hf. intros H. inversion H. exists f. split; [exact Hin|reflexivity].
Qed.

(** X20: a file name is listed by the menu exactly when its lower-case form
    is some stem followed by ".obj"; the stem may be empty and the case of
    the extension does not matter. *)
Theorem is_obj_characterisation (f : string) :
  is_obj f = true <-> exists stem, lower f = (stem ++ ".obj")%string.
Proof.
  unfold is_obj. split.
  - apply endswith_inv.
  - intros [stem H]. rewrite H. apply endswith_app.
Qed.

(** X21: whatever the folder name and the events, a path the menu returns
    ends in ".obj", in any mix of cases. *)
Theorem menu_returns_obj_path (folder : string) (listing : list string)
    (batches : list (list event)) (p : string) :
  obj_menu folder listing batches = MenuReturn p -> is_obj p = true.
Proof.
  intros H. apply obj_menu_return_inv in H. destruct H as [f [Hin Hp]].
  subst p. apply os_path_join_is_obj.
  apply filter_In in Hin. exact (proj2 Hin).
Qed.

Lemma menu_returns_obj_path_witness :
  is_obj "OBJ_files/B.OBJ" = true.
Proof.
  apply (menu_returns_obj_path "OBJ_files"
           ["a.obj"; "readme.txt"; "B.OBJ"]%string
           [[KEYDOWN K_UP]; [OtherEvent; KEYDOWN K_RETURN]]).
  reflexivity.
Defined.

Lemma is_obj_characterisation_witness :
  exists stem, lower "Room.OBJ" = (stem ++ ".obj")%string.
Proof.
  apply (proj1 (is_obj_characterisation "Room.OBJ")). reflexivity.
Defined.
